(** * Luxury Liquor pre-booking platform: the booking pipeline of [script.js]

    A shallow embedding of the client-side script: the field validators, the
    catalog lookup and search, the [localStorage] wrapper, the selection
    manager and the order pipeline ([generateETA], [generateOrderId],
    [validateOrderForm], [processOrder]), together with [formatCurrency] and
    the form data the order page submits.  What the script does to the page
    itself (markup, listeners, timers) is outside the embedding.

    Conventions of the embedding.
    - A JavaScript string is the list of its UTF-16 code units ([list N]);
      [.length] is [length].  Source literals are written [lit "..."].
    - A JavaScript number is [NaN] or an integer [Int z].  The script only
      computes with integers (prices, quantities, days, timestamps); integer
      arithmetic is exact below 2^53, which is the range the pipeline works
      in.  Comparisons of a parsed integer against the constants 1 and 10
      are unaffected by rounding.
    - [undefined] for a form field is [None]; a value of any type is a
      [value], with [VNull] for the [null] the storage wrapper returns.
    - The browser is a [World]: the [localStorage] area plus the trace of
      console messages and presentation callbacks the script has issued.
      Stateful functions live in the state monad [M]. *)

From Stdlib Require Import ZArith QArith Qround String Ascii List Bool Lia.
From stdpp Require Import gmap strings list fin_maps pretty.

Local Open Scope Z_scope.

(* ===================================================================== *)
(** ** JavaScript strings                                                *)
(* ===================================================================== *)

Abbreviation jsstring := (list N).

(** A source literal, code unit by code unit (ASCII literals only). *)
Definition lit (s : string) : jsstring :=
  map N_of_ascii (list_ascii_of_string s).

(** WhiteSpace and LineTerminator code points of ECMAScript: the set that
    [String.prototype.trim] strips and that [\s] matches. *)
Definition is_whitespace (c : N) : bool :=
  ((9 <=? c) && (c <=? 13))%N          (* TAB LF VT FF CR *)
  || (c =? 32)%N                       (* SPACE *)
  || (c =? 160)%N                      (* NO-BREAK SPACE *)
  || (c =? 5760)%N                     (* OGHAM SPACE MARK *)
  || ((8192 <=? c) && (c <=? 8202))%N  (* EN QUAD .. HAIR SPACE *)
  || (c =? 8232)%N || (c =? 8233)%N    (* LINE / PARAGRAPH SEPARATOR *)
  || (c =? 8239)%N || (c =? 8287)%N    (* NARROW NBSP, MEDIUM MATH SPACE *)
  || (c =? 12288)%N                    (* IDEOGRAPHIC SPACE *)
  || (c =? 65279)%N.                   (* BYTE ORDER MARK *)

(** [\d]: the ten ASCII digits. *)
Definition is_digit (c : N) : bool := ((48 <=? c) && (c <=? 57))%N.

Fixpoint trimStart (s : jsstring) : jsstring :=
  match s with
  | c :: r => if is_whitespace c then trimStart r else s
  | [] => []
  end.

Definition trimEnd (s : jsstring) : jsstring := rev (trimStart (rev s)).

(** [s.trim()] *)
Definition trim (s : jsstring) : jsstring := trimEnd (trimStart s).

(** [s.replace(/\s+/g, '')]: every maximal run of whitespace is replaced by
    the empty string, so exactly the whitespace code units disappear. *)
Definition remove_whitespace (s : jsstring) : jsstring :=
  filter (fun c => is_whitespace c = false) s.

(** [(x || '')] for a value that is a string or [undefined]. *)
Definition or_empty (x : option jsstring) : jsstring :=
  match x with
  | Some s => s
  | None => []
  end.

(** [s.toUpperCase()] on the ASCII letters (the only letters the order id
    is built from). *)
Definition toUpperCase (s : jsstring) : jsstring :=
  map (fun c => if ((97 <=? c) && (c <=? 122))%N then (c - 32)%N else c) s.

(** [s.substr(start, len)] for non-negative arguments. *)
Definition substr (s : jsstring) (start len : nat) : jsstring :=
  take len (drop start s).

(** [s.includes(t)] *)
Fixpoint starts_with (t s : jsstring) : bool :=
  match t, s with
  | [], _ => true
  | a :: t', b :: s' => (a =? b)%N && starts_with t' s'
  | _ :: _, [] => false
  end.

Fixpoint includes (s t : jsstring) : bool :=
  starts_with t s ||
  match s with
  | [] => false
  | _ :: s' => includes s' t
  end.

(* ===================================================================== *)
(** ** JavaScript numbers                                                *)
(* ===================================================================== *)

Inductive number :=
| NaN
| Int (z : Z).

Definition isNaN (n : number) : bool :=
  match n with NaN => true | Int _ => false end.

(** [a < b] and [a > b]: every comparison with [NaN] is false. *)
Definition js_lt (a b : number) : bool :=
  match a, b with Int x, Int y => x <? y | _, _ => false end.

Definition js_gt (a b : number) : bool := js_lt b a.

(** [a * b] on numbers.  The product is the exact integer; it is the
    number the script computes whenever the operands and the product are
    safe integers (of magnitude below 2^53), which is what the theorems
    that speak of an amount assume. *)
Definition js_mul (a b : number) : number :=
  match a, b with Int x, Int y => Int (x * y) | _, _ => NaN end.

(** [String(n)] for an integer in decimal notation, ["NaN"] otherwise. *)
Definition Number_toString (n : number) : jsstring :=
  match n with
  | NaN => lit "NaN"
  | Int z => lit (pretty z)
  end.

(** Value of a run of decimal digits, most significant first. *)
Definition digit_value (c : N) : Z := Z.of_N c - 48.

Fixpoint digits_value (acc : Z) (s : jsstring) : Z :=
  match s with
  | c :: r => digits_value (10 * acc + digit_value c) r
  | [] => acc
  end.

(** Longest prefix of decimal digits. *)
Fixpoint digit_prefix (s : jsstring) : jsstring :=
  match s with
  | c :: r => if is_digit c then c :: digit_prefix r else []
  | [] => []
  end.

(** [parseInt(string, 10)] on a string, following the standard: skip
    leading whitespace, read an optional sign, take the longest prefix of
    decimal digits; no digit gives [NaN]. *)
Definition parseInt_string (input : jsstring) : number :=
  let trimmed := trimStart input in
  let '(sign, rest) :=
    match trimmed with
    | 45%N :: r => (-1, r)              (* '-' *)
    | 43%N :: r => (1, r)               (* '+' *)
    | _ => (1, trimmed)
    end in
  match digit_prefix rest with
  | [] => NaN
  | ds => Int (sign * digits_value 0 ds)
  end.

(** [parseInt(x, 10)] where [x] is a string or [undefined]; [undefined] is
    first converted to the string ["undefined"]. *)
Definition parseInt (x : option jsstring) : number :=
  match x with
  | Some s => parseInt_string s
  | None => parseInt_string (lit "undefined")
  end.

(* ===================================================================== *)
(** ** Regular expressions                                               *)
(* ===================================================================== *)

(** The two patterns of the script have one shape: between [^] and [$], a
    sequence of character classes, each repeated a fixed number of times. *)
Inductive char_class :=
| digit_class                    (* [\d] *)
| range_class (lo hi : N).       (* [[lo-hi]] *)

Definition in_class (k : char_class) (c : N) : bool :=
  match k with
  | digit_class => is_digit c
  | range_class lo hi => ((lo <=? c) && (c <=? hi))%N
  end.

Inductive RegExp :=
| anchored (pieces : list (char_class * nat)).

(** Matching from the current position to the end of the input. *)
Fixpoint match_pieces (pieces : list (char_class * nat)) (s : jsstring)
  : bool :=
  match pieces with
  | [] => match s with [] => true | _ :: _ => false end
  | (k, n) :: rest =>
      (length (take n s) =? n)%nat
      && forallb (in_class k) (take n s)
      && match_pieces rest (drop n s)
  end.

(** [r.test(s)] *)
Definition RegExp_test (r : RegExp) (s : jsstring) : bool :=
  match r with
  | anchored pieces => match_pieces pieces s
  end.

(* ===================================================================== *)
(** ** Configuration                                                     *)
(* ===================================================================== *)

Module CONFIG.
Module STORAGE_KEYS.
Definition SELECTED_PRODUCT : jsstring := lit "luxe_liquor_selected_product".
Definition BOOKING_DATA : jsstring := lit "luxe_liquor_booking_data".
Definition USER_PREFERENCES : jsstring := lit "luxe_liquor_user_prefs".
End STORAGE_KEYS.

Module DELIVERY.
Definition MIN_DAYS : Z := 2.
Definition MAX_DAYS : Z := 5.
Definition WEEKEND_DELAY : Z := 1.
End DELIVERY.

Module VALIDATION.
(** [/^[6-9]\d{9}$/] *)
Definition PHONE_REGEX : RegExp :=
  anchored [(range_class 54 57, 1%nat); (digit_class, 9%nat)].

(** [/^\d{6}$/] *)
Definition PIN_REGEX : RegExp :=
  anchored [(digit_class, 6%nat)].

Definition MIN_NAME_LENGTH : Z := 2.
Definition MIN_ADDRESS_LENGTH : Z := 10.
End VALIDATION.

Module CURRENCY.
(** The rupee sign U+20B9. *)
Definition SYMBOL : jsstring := [8377%N].
End CURRENCY.
End CONFIG.

(* ===================================================================== *)
(** ** Validator                                                         *)
(* ===================================================================== *)

(** [s.length] as a number. *)
Definition str_length (s : jsstring) : Z := Z.of_nat (length s).

Module Validator.
Import CONFIG.VALIDATION.

(** [{ isValid, message }] *)
Record result := mk_result {
  isValid : bool;
  message : jsstring
}.

(** [{ isValid, value, message }], the shape [validatePhone] returns. *)
Record phone_result := mk_phone_result {
  phone_isValid : bool;
  value : jsstring;
  phone_message : jsstring
}.

Definition validateName (name : option jsstring) : result :=
  let trimmedName := trim (or_empty name) in
  let isValid := MIN_NAME_LENGTH <=? str_length trimmedName in
  {| isValid := isValid;
     message :=
       if isValid then []
       else lit "Name must be at least "
            ++ Number_toString (Int MIN_NAME_LENGTH)
            ++ lit " characters long" |}.

Definition validatePhone (phone : option jsstring) : phone_result :=
  let trimmedPhone := remove_whitespace (trim (or_empty phone)) in
  let isValid := RegExp_test PHONE_REGEX trimmedPhone in
  {| phone_isValid := isValid;
     value := trimmedPhone;
     phone_message :=
       if isValid then []
       else lit "Please enter a valid 10-digit Indian mobile number" |}.

Definition validateAddress (address : option jsstring) : result :=
  let trimmedAddress := trim (or_empty address) in
  let isValid := MIN_ADDRESS_LENGTH <=? str_length trimmedAddress in
  {| isValid := isValid;
     message :=
       if isValid then []
       else lit "Address must be at least "
            ++ Number_toString (Int MIN_ADDRESS_LENGTH)
            ++ lit " characters long" |}.

Definition validatePIN (pin : option jsstring) : result :=
  let trimmedPIN := trim (or_empty pin) in
  let isValid := RegExp_test PIN_REGEX trimmedPIN in
  {| isValid := isValid;
     message :=
       if isValid then []
       else lit "Please enter a valid 6-digit PIN code" |}.
End Validator.

(* ===================================================================== *)
(** ** JavaScript values and the browser                                 *)
(* ===================================================================== *)

(** Values the script handles dynamically.  Objects are finite maps from
    property names to values; [VDate t] is a [Date] with time value [t]. *)
#[warning="-register-all"]
Inductive value :=
| VUndefined
| VNull
| VBool (b : bool)
| VNum (n : number)
| VStr (s : jsstring)
| VDate (t : Z)
| VArr (l : list value)
| VObj (m : gmap jsstring value).

(** [!v] is [negb (truthy v)]. *)
Definition truthy (v : value) : bool :=
  match v with
  | VUndefined | VNull => false
  | VBool b => b
  | VNum NaN => false
  | VNum (Int z) => negb (z =? 0)
  | VStr s => negb (length s =? 0)%nat
  | VDate _ | VArr _ | VObj _ => true
  end.

(** [v.name] for a truthy [v]; only plain objects carry the properties the
    script reads, everything else answers [undefined]. *)
Definition property (v : value) (name : jsstring) : value :=
  match v with
  | VObj m => default VUndefined (m !! name)
  | _ => VUndefined
  end.

(** A string held by [localStorage]: the JSON text of a value, or a string
    that is not JSON text (for instance one written by other code of the
    same origin). *)
Inductive item :=
| Text (v : value)
| Malformed (raw : jsstring).

(** What the script observes of its host but does not define. *)
Class Host := {
  (** [localStorage.setItem(key, text)] stores [text] instead of throwing
      [QuotaExceededError]; it depends on what the area already holds. *)
  quota_allows : gmap jsstring item -> jsstring -> item -> bool;
  (** Local time zone adjustment, in milliseconds, at a time value. *)
  LocalTZA : Z -> Z;
  (** [new Date(t).toISOString()] *)
  Date_toISOString : Z -> jsstring;
  (** [new Date(t).toLocaleDateString('en-IN',
       { year: 'numeric', month: 'short', day: 'numeric' })] *)
  Date_toLocaleDateString : Z -> jsstring;
  (** [x.toString(36)] for a fraction [x] of [0, 1) *)
  fraction_toString36 : Q -> jsstring;
  (** [Number(s)] for a string, and [String(a)] for an array *)
  StringToNumber : jsstring -> number;
  Array_toString : list value -> jsstring
}.

(** [Number(v)], as the operator [*] applies it to an operand that is a
    primitive, an array or a plain object with the inherited conversions.
    (Applied to a parsed object that carries a "toString" entry of its own
    the script throws; the theorems that speak of an amount are about a
    selection that is a product, whose price is a number.) *)
Definition ToNumber `{Host} (v : value) : number :=
  match v with
  | VUndefined => NaN
  | VNull => Int 0
  | VBool b => Int (if b then 1 else 0)
  | VNum n => n
  | VStr s => StringToNumber s
  | VDate t => Int t
  | VArr l => StringToNumber (Array_toString l)
  | VObj _ => NaN                                (* "[object Object]" *)
  end.

(** The value denoted by the text [JSON.stringify(v)]; [None] when
    [JSON.stringify] answers [undefined].  [NaN] is written as [null], a
    date as its ISO string, an [undefined] member is left out of an object
    and written as [null] in an array. *)
Fixpoint JSON_stringify `{Host} (v : value) : option value :=
  match v with
  | VUndefined => None
  | VNull => Some VNull
  | VBool b => Some (VBool b)
  | VNum NaN => Some VNull
  | VNum (Int z) => Some (VNum (Int z))
  | VStr s => Some (VStr s)
  | VDate t => Some (VStr (Date_toISOString t))
  | VArr l => Some (VArr (map (fun x => default VNull (JSON_stringify x)) l))
  | VObj m => Some (VObj (omap JSON_stringify m))
  end.

(** Things the script does to the page and the console. *)
Inductive effect :=
| console_warn (msg : jsstring)
| console_error (msg : jsstring)
| updateSelectedSummary_called
| showNotification_called (message type : jsstring).

Record World := mk_World {
  (** reading [window.localStorage] throws (storage disabled by policy) *)
  storage_blocked : bool;
  localStorage : gmap jsstring item;
  trace : list effect
}.

Definition M (A : Type) : Type := World -> A * World.

#[global] Instance M_ret : MRet M := fun A (a : A) w => (a, w).
#[global] Instance M_bind : MBind M :=
  fun A B (k : A -> M B) (c : M A) w => let '(a, w') := c w in k a w'.

Definition emit (e : effect) : M unit :=
  fun w => (tt, {| storage_blocked := storage_blocked w;
                   localStorage := localStorage w;
                   trace := trace w ++ [e] |}).

(** [list.forEach(f)]: [f] on every element in turn, results dropped. *)
Fixpoint forEach {A B : Type} (l : list A) (f : A -> M B) : M unit :=
  match l with
  | [] => mret tt
  | x :: rest => _ ← f x; forEach rest f
  end.

(** The script's own objects, seen as dynamic values. *)
Class AsValue (A : Type) := as_value : A -> value.

#[global] Instance value_AsValue : AsValue value := fun v => v.

(* ===================================================================== *)
(** ** Storage                                                           *)
(* ===================================================================== *)

(** The string [localStorage.setItem(key, JSON.stringify(v))] stores; an
    [undefined] argument is stored as the string ["undefined"]. *)
Definition JSON_text `{Host} (v : value) : item :=
  match JSON_stringify v with
  | Some v' => Text v'
  | None => Malformed (lit "undefined")
  end.

Module Storage.
Definition setItem `{Host} {A} `{AsValue A} (key : jsstring) (obj : A)
  : M bool :=
  fun w =>
    let text := JSON_text (as_value obj) in
    if storage_blocked w || negb (quota_allows (localStorage w) key text)
    then (* catch (error) *)
      (false, snd (emit (console_error (lit "Storage setItem error:")) w))
    else
      (true, {| storage_blocked := storage_blocked w;
                localStorage := <[key := text]> (localStorage w);
                trace := trace w |}).

Definition getItem (key : jsstring) : M value :=
  fun w =>
    if storage_blocked w
    then (VNull, snd (emit (console_error (lit "Storage getItem error:")) w))
    else
      match localStorage w !! key with
      | None => (VNull, w)
      | Some (Text v) => (v, w)
      | Some (Malformed []) => (VNull, w)          (* item ? ... : null *)
      | Some (Malformed _) =>                      (* JSON.parse throws *)
          (VNull, snd (emit (console_error (lit "Storage getItem error:")) w))
      end.

Definition removeItem (key : jsstring) : M bool :=
  fun w =>
    if storage_blocked w
    then (false, snd (emit (console_error (lit "Storage removeItem error:")) w))
    else
      (true, {| storage_blocked := storage_blocked w;
                localStorage := delete key (localStorage w);
                trace := trace w |}).

(** [Object.values(CONFIG.STORAGE_KEYS)], in declaration order. *)
Definition STORAGE_KEYS_values : list jsstring :=
  [CONFIG.STORAGE_KEYS.SELECTED_PRODUCT;
   CONFIG.STORAGE_KEYS.BOOKING_DATA;
   CONFIG.STORAGE_KEYS.USER_PREFERENCES].

Definition clearAll : M unit :=
  forEach STORAGE_KEYS_values (fun key => removeItem key).
End Storage.

(* ===================================================================== *)
(** ** Currency formatting                                               *)
(* ===================================================================== *)

(** Digit grouping of the [en-IN] locale on a run of digits given least
    significant first: the lowest three digits, then groups of two. *)
Fixpoint group_pairs (r : jsstring) : jsstring :=
  match r with
  | a :: b :: rest =>
      a :: b :: match rest with [] => [] | _ => 44%N :: group_pairs rest end
  | _ => r
  end.

Definition group_en_IN (digits : jsstring) : jsstring :=
  let r := rev digits in
  rev (take 3 r ++
       match drop 3 r with [] => [] | more => 44%N :: group_pairs more end).

(** [z.toLocaleString('en-IN')] for an integer that a number holds
    exactly (a safe integer). *)
Definition toLocaleString_en_IN (z : Z) : jsstring :=
  if z <? 0 then 45%N :: group_en_IN (lit (pretty (- z)))
  else group_en_IN (lit (pretty z)).

(** [typeof v] *)
Definition typeof (v : value) : string :=
  match v with
  | VUndefined => "undefined"
  | VBool _ => "boolean"
  | VNum _ => "number"
  | VStr _ => "string"
  | VNull | VDate _ | VArr _ | VObj _ => "object"
  end.

Definition formatCurrency (amount : value) : M jsstring :=
  match amount with
  | VNum (Int z) =>
      mret (CONFIG.CURRENCY.SYMBOL ++ toLocaleString_en_IN z)
  | _ => (* typeof amount !== 'number' || isNaN(amount) *)
      _ ← emit (console_warn (lit "Invalid amount provided to formatCurrency:"));
      mret (CONFIG.CURRENCY.SYMBOL ++ lit "0")
  end.

(* ===================================================================== *)
(** ** Catalog                                                           *)
(* ===================================================================== *)

Module Product.
Record t := mk {
  id : jsstring;
  name : jsstring;
  price : Z;
  abv : Z;
  image : jsstring;
  category : jsstring;
  description : jsstring
}.
End Product.

#[global] Instance Product_eq_dec : EqDecision Product.t.
Proof. solve_decision. Defined.

#[global] Instance Product_AsValue : AsValue Product.t := fun p =>
  VObj (<[lit "id" := VStr (Product.id p)]>
       (<[lit "name" := VStr (Product.name p)]>
       (<[lit "price" := VNum (Int (Product.price p))]>
       (<[lit "abv" := VNum (Int (Product.abv p))]>
       (<[lit "image" := VStr (Product.image p)]>
       (<[lit "category" := VStr (Product.category p)]>
       (<[lit "description" := VStr (Product.description p)]> ∅))))))).

Module PRODUCT_CATALOG.
Definition products : list Product.t := [
  {| Product.id := lit "jack-premium-whisky";
     Product.name := lit "Premium Whisky - Jack Daniels";
     Product.price := 1299; Product.abv := 40;
     Product.image := lit "images/jack.jpg";
     Product.category := lit "whisky";
     Product.description := lit "Tennessee whiskey with smooth vanilla finish" |};
  {| Product.id := lit "jameson-irish-whisky";
     Product.name := lit "Jameson Irish Whisky";
     Product.price := 1199; Product.abv := 40;
     Product.image := lit "images/jameson.jpg";
     Product.category := lit "whisky";
     Product.description := lit "Triple-distilled Irish whiskey with citrus notes" |};
  {| Product.id := lit "luxury-premium-vodka";
     Product.name := lit "Luxury Premium Vodka";
     Product.price := 999; Product.abv := 40;
     Product.image := lit "images/vodka.jpg";
     Product.category := lit "vodka";
     Product.description := lit "Ultra-pure vodka with crystal clarity" |};
  {| Product.id := lit "black-tot-rum";
     Product.name := lit "Black Tot Premium Rum";
     Product.price := 899; Product.abv := 42;
     Product.image := lit "images/blacktot.jpg";
     Product.category := lit "rum";
     Product.description := lit "Caribbean rum with rich molasses flavor" |};
  {| Product.id := lit "black-white-scotch";
     Product.name := lit "Black & White Scotch Whisky";
     Product.price := 1099; Product.abv := 43;
     Product.image := lit "images/blackwhite.jpg";
     Product.category := lit "whisky";
     Product.description := lit "Blended Scotch with smoky undertones" |};
  {| Product.id := lit "old-monk-rum";
     Product.name := lit "Old Monk Dark Rum";
     Product.price := 499; Product.abv := 42;
     Product.image := lit "images/oldmonk.jpg";
     Product.category := lit "rum";
     Product.description := lit "Classic Indian dark rum with vanilla notes" |}
].
End PRODUCT_CATALOG.

(** Lower case of the ASCII letters. *)
Definition ascii_lower (s : jsstring) : jsstring :=
  map (fun c => if ((65 <=? c) && (c <=? 90))%N then (c + 32)%N else c) s.

(** [s.toLowerCase()] is the host's Unicode case mapping; on a string of
    ASCII code units it lowers the letters A to Z and nothing else. *)
Class Casing := {
  String_toLowerCase : jsstring -> jsstring;
  String_toLowerCase_ascii :
    forall s, Forall (fun c => (c < 128)%N) s ->
              String_toLowerCase s = ascii_lower s
}.

Module ProductManager.
Definition getAllProducts : list Product.t := PRODUCT_CATALOG.products.

(** [products.find(product => product.id === productId) || null]; a
    product object is truthy, so [None] (for [null]) is returned exactly
    when [find] finds nothing. *)
Definition getProductById (productId : jsstring) : option Product.t :=
  List.find (fun product => bool_decide (Product.id product = productId))
            PRODUCT_CATALOG.products.

Definition getProductsByCategory (category' : jsstring) : list Product.t :=
  List.filter (fun product => bool_decide (Product.category product = category'))
              PRODUCT_CATALOG.products.

Definition searchProducts `{Casing} (query : jsstring) : list Product.t :=
  let searchTerm := trim (String_toLowerCase query) in
  List.filter
    (fun product =>
       includes (String_toLowerCase (Product.name product)) searchTerm
       || includes (String_toLowerCase (Product.category product)) searchTerm)
    PRODUCT_CATALOG.products.
End ProductManager.

(* ===================================================================== *)
(** ** Selection                                                         *)
(* ===================================================================== *)

(** The presentation callbacks the core invokes; their work on the page is
    recorded as one event each. *)
Module UIManager.
Definition updateSelectedSummary : M unit :=
  emit updateSelectedSummary_called.

Definition showNotification (message type : jsstring) : M unit :=
  emit (showNotification_called message type).
End UIManager.

Module SelectionManager.
Import CONFIG.STORAGE_KEYS.

Definition selectProduct `{Host} (productId : jsstring) : M bool :=
  match ProductManager.getProductById productId with
  | None =>
      _ ← emit (console_warn (lit "Product not found:"));
      mret false
  | Some product =>
      success ← Storage.setItem SELECTED_PRODUCT product;
      _ ← (if success : bool
           then _ ← UIManager.updateSelectedSummary;
                UIManager.showNotification
                  (lit "Product selected successfully") (lit "success")
           else mret tt);
      mret success
  end.

Definition getSelectedProduct : M value :=
  Storage.getItem SELECTED_PRODUCT.

Definition clearSelection : M bool :=
  success ← Storage.removeItem SELECTED_PRODUCT;
  _ ← (if success : bool then UIManager.updateSelectedSummary else mret tt);
  mret success.
End SelectionManager.

(* ===================================================================== *)
(** ** Orders                                                            *)
(* ===================================================================== *)

Module ETA.
Record t := mk {
  date : Z;                  (* time value of the [Date] *)
  dateString : jsstring;
  daysFromNow : Z;
  relative : jsstring
}.
End ETA.

#[global] Instance ETA_AsValue : AsValue ETA.t := fun eta =>
  VObj (<[lit "date" := VDate (ETA.date eta)]>
       (<[lit "dateString" := VStr (ETA.dateString eta)]>
       (<[lit "daysFromNow" := VNum (Int (ETA.daysFromNow eta))]>
       (<[lit "relative" := VStr (ETA.relative eta)]> ∅)))).

Module Booking.
Record t := mk {
  id : jsstring;
  createdAt : jsstring;
  status : jsstring;
  customer : gmap jsstring jsstring;
  product : value;
  eta : ETA.t;
  totalAmount : number
}.
End Booking.

#[global] Instance Booking_AsValue : AsValue Booking.t := fun b =>
  VObj (<[lit "id" := VStr (Booking.id b)]>
       (<[lit "createdAt" := VStr (Booking.createdAt b)]>
       (<[lit "status" := VStr (Booking.status b)]>
       (<[lit "customer" := VObj (VStr <$> Booking.customer b)]>
       (<[lit "product" := Booking.product b]>
       (<[lit "eta" := as_value (Booking.eta b)]>
       (<[lit "totalAmount" := VNum (Booking.totalAmount b)]> ∅))))))).

(** What one call of [processOrder] reads from the clock and from
    [Math.random], in the order it reads them. *)
Record Readings := mk_Readings {
  orderId_now : Z;           (* [Date.now()] in [generateOrderId] *)
  orderId_random : Q;        (* [Math.random()] in [generateOrderId] *)
  eta_today : Z;             (* [new Date()] in [generateETA] *)
  eta_random : Q;            (* [Math.random()] in [generateETA] *)
  createdAt_now : Z          (* [new Date()] for [createdAt] *)
}.

(** [date.getDay()]: the day of the week in local time, 0 for Sunday. *)
Definition Date_getDay `{Host} (t : Z) : Z :=
  ((t + LocalTZA t) / 86400000 + 4) mod 7.

(** [n.toString(36)] for an integer. *)
Definition radix36_char (d : Z) : N :=
  Z.to_N (if d <? 10 then 48 + d else 87 + d).

Fixpoint radix36_digits (fuel : nat) (n : Z) (acc : jsstring) : jsstring :=
  match fuel with
  | O => acc
  | S fuel' =>
      let acc' := radix36_char (n mod 36) :: acc in
      if n / 36 =? 0 then acc' else radix36_digits fuel' (n / 36) acc'
  end.

Definition integer_toString36 (n : Z) : jsstring :=
  if n <? 0
  then 45%N :: radix36_digits (S (Z.to_nat (Z.log2 (- n)))) (- n) []
  else radix36_digits (S (Z.to_nat (Z.log2 n))) n [].

Module OrderManager.
Import CONFIG.DELIVERY CONFIG.STORAGE_KEYS.

(** [baseDays === 1 ? 'Tomorrow' : `${baseDays} days`] *)
Definition relative_label (baseDays : Z) : jsstring :=
  if baseDays =? 1 then lit "Tomorrow"
  else Number_toString (Int baseDays) ++ lit " days".

Definition generateETA `{Host} (today : Z) (random : Q) : ETA.t :=
  let dayOfWeek := Date_getDay today in
  let baseDays :=
    Qfloor (random * inject_Z (MAX_DAYS - MIN_DAYS + 1)) + MIN_DAYS in
  let baseDays :=
    if (dayOfWeek =? 0) || (dayOfWeek =? 6)
    then baseDays + WEEKEND_DELAY
    else baseDays in
  let deliveryDate := today + baseDays * 24 * 60 * 60 * 1000 in
  {| ETA.date := deliveryDate;
     ETA.dateString := Date_toLocaleDateString deliveryDate;
     ETA.daysFromNow := baseDays;
     ETA.relative := relative_label baseDays |}.

Definition generateOrderId `{Host} (now : Z) (random : Q) : jsstring :=
  let timestamp := integer_toString36 now in
  let random := substr (fraction_toString36 random) 2 4 in
  toUpperCase (lit "LLX-" ++ timestamp ++ lit "-" ++ random).

(** [{ isValid, errors, validatedData }] *)
Record validation := mk_validation {
  isValid : bool;
  errors : gmap jsstring jsstring;
  validatedData : gmap jsstring jsstring
}.

(** [!s] for a string or [undefined]. *)
Definition blank (s : option jsstring) : bool :=
  match s with
  | Some (_ :: _) => false
  | _ => true
  end.

Definition validateOrderForm (formData : gmap jsstring jsstring)
  : validation :=
  let errors : gmap jsstring jsstring := ∅ in
  let isValid := true in
  (* Validate name *)
  let nameValidation := Validator.validateName (formData !! lit "name") in
  let '(errors, isValid) :=
    if negb (Validator.isValid nameValidation)
    then (<[lit "name" := Validator.message nameValidation]> errors, false)
    else (errors, isValid) in
  (* Validate phone *)
  let phoneValidation := Validator.validatePhone (formData !! lit "phone") in
  let '(errors, isValid) :=
    if negb (Validator.phone_isValid phoneValidation)
    then (<[lit "phone" := Validator.phone_message phoneValidation]> errors,
          false)
    else (errors, isValid) in
  (* Validate address *)
  let addressValidation :=
    Validator.validateAddress (formData !! lit "address") in
  let '(errors, isValid) :=
    if negb (Validator.isValid addressValidation)
    then (<[lit "address" := Validator.message addressValidation]> errors,
          false)
    else (errors, isValid) in
  (* Validate city *)
  let '(errors, isValid) :=
    if blank (formData !! lit "city")
       || (str_length (trim (or_empty (formData !! lit "city"))) <? 2)
    then (<[lit "city" := lit "Please enter a valid city name"]> errors, false)
    else (errors, isValid) in
  (* Validate PIN *)
  let pinValidation := Validator.validatePIN (formData !! lit "pin") in
  let '(errors, isValid) :=
    if negb (Validator.isValid pinValidation)
    then (<[lit "pin" := Validator.message pinValidation]> errors, false)
    else (errors, isValid) in
  (* Validate payment method *)
  let '(errors, isValid) :=
    if blank (formData !! lit "payment")
    then (<[lit "payment" := lit "Please select a payment method"]> errors,
          false)
    else (errors, isValid) in
  (* Validate quantity *)
  let quantity := parseInt (formData !! lit "quantity") in
  let '(errors, isValid) :=
    if isNaN quantity || js_lt quantity (Int 1) || js_gt quantity (Int 10)
    then (<[lit "quantity" := lit "Quantity must be between 1 and 10"]> errors,
          false)
    else (errors, isValid) in
  {| isValid := isValid;
     errors := errors;
     validatedData :=
       <[lit "phone" := Validator.value phoneValidation]> formData |}.

(** The three objects [processOrder] returns. *)
Inductive result :=
| no_selection (error : jsstring)
    (* [{ success: false, error }] *)
| invalid_form (errors : gmap jsstring jsstring)
    (* [{ success: false, errors }] *)
| submitted (success : bool) (booking : option Booking.t)
            (error : option jsstring).
    (* [{ success, booking, error }], [None] for [null] *)

Definition success (r : result) : bool :=
  match r with
  | no_selection _ | invalid_form _ => false
  | submitted s _ _ => s
  end.

(** [r.error], [r.errors] and [r.booking]; [None] when the property is
    missing or [null]. *)
Definition result_error (r : result) : option jsstring :=
  match r with
  | no_selection e => Some e
  | invalid_form _ => None
  | submitted _ _ e => e
  end.

Definition result_errors (r : result) : option (gmap jsstring jsstring) :=
  match r with
  | invalid_form es => Some es
  | _ => None
  end.

Definition result_booking (r : result) : option Booking.t :=
  match r with
  | submitted _ b _ => b
  | _ => None
  end.

Definition processOrder `{Host} (formData : gmap jsstring jsstring)
  (readings : Readings) : M result :=
  selectedProduct ← SelectionManager.getSelectedProduct;
  if negb (truthy selectedProduct) then
    mret (no_selection
      (lit "No product selected. Please select a product from the menu first."))
  else
    let validation := validateOrderForm formData in
    if negb (isValid validation) then
      mret (invalid_form (errors validation))
    else
      let orderId :=
        generateOrderId (orderId_now readings) (orderId_random readings) in
      let eta := generateETA (eta_today readings) (eta_random readings) in
      let booking :=
        {| Booking.id := orderId;
           Booking.createdAt := Date_toISOString (createdAt_now readings);
           Booking.status := lit "confirmed";
           Booking.customer := validatedData validation;
           Booking.product := selectedProduct;
           Booking.eta := eta;
           Booking.totalAmount :=
             js_mul (ToNumber (property selectedProduct (lit "price")))
                    (parseInt (validatedData validation !! lit "quantity")) |} in
      success ← Storage.setItem BOOKING_DATA booking;
      mret (submitted success
              (if success : bool then Some booking else None)
              (if success : bool then None
               else Some (lit "Failed to save order. Please try again."))).
End OrderManager.

(* ===================================================================== *)
(** ** The order page                                                    *)
(* ===================================================================== *)

(** What [handleOrderSubmit] finds on the page: for each input element its
    [value], or [None] when the element is not on the page. *)
Module OrderPage.
Record t := mk {
  customerName : option jsstring;        (* [#customerName] *)
  phone : option jsstring;               (* [#phone] *)
  address : option jsstring;             (* [#address] *)
  city : option jsstring;                (* [#city] *)
  pin : option jsstring;                 (* [#pin] *)
  payment : option jsstring;             (* [#payment] *)
  quantity : option jsstring             (* [#quantity] *)
}.
End OrderPage.

(** [DOM.select(sel)?.value || fallback] *)
Definition value_or (x : option jsstring) (fallback : jsstring) : jsstring :=
  match x with
  | Some (c :: s) => c :: s
  | _ => fallback
  end.

(** The [formData] object [handleOrderSubmit] collects. *)
Definition handleOrderSubmit_formData (page : OrderPage.t)
  : gmap jsstring jsstring :=
  <[lit "name" := value_or (OrderPage.customerName page) []]>
  (<[lit "phone" := value_or (OrderPage.phone page) []]>
  (<[lit "address" := value_or (OrderPage.address page) []]>
  (<[lit "city" := value_or (OrderPage.city page) []]>
  (<[lit "pin" := value_or (OrderPage.pin page) []]>
  (<[lit "payment" := value_or (OrderPage.payment page) []]>
  (<[lit "quantity" := value_or (OrderPage.quantity page) (lit "1")]>
     ∅)))))).

(** The call [handleOrderSubmit] makes on the collected data. *)
Definition handleOrderSubmit_processOrder `{Host} (page : OrderPage.t)
  (readings : Readings) : M OrderManager.result :=
  OrderManager.processOrder (handleOrderSubmit_formData page) readings.

(* ===================================================================== *)
(** ** Vocabulary of the properties                                      *)
(* ===================================================================== *)

(** An integer that a JavaScript number holds exactly, together with all
    integers of smaller magnitude ([Number.MAX_SAFE_INTEGER] is 2^53 - 1). *)
Definition safe_integer (z : Z) : Prop := Z.abs z <= 9007199254740991.


(** The digits of base 36, with lower-case and with upper-case letters. *)
Definition base36_lower (c : N) : Prop :=
  (48 <= c <= 57 \/ 97 <= c <= 122)%N.

Definition base36_upper (c : N) : Prop :=
  (48 <= c <= 57 \/ 65 <= c <= 90)%N.

(** Reading a base-36 numeral, in either case, most significant digit
    first. *)
Definition radix36_value (c : N) : Z :=
  if (c <=? 57)%N then Z.of_N c - 48
  else if (c <=? 90)%N then Z.of_N c - 55
  else Z.of_N c - 87.

Definition radix36_decode (s : jsstring) : Z :=
  foldl (fun acc c => 36 * acc + radix36_value c) 0 s.

(** An input element that is missing from the page or left empty. *)
Definition not_filled (x : option jsstring) : Prop :=
  x = None \/ x = Some [].


(** A string of ASCII code units. *)
Definition ascii_string (s : jsstring) : Prop :=
  Forall (fun c => (c < 128)%N) s.

(** A string made of whitespace only (possibly empty). *)
Definition blank_string (s : jsstring) : Prop :=
  Forall (fun c => is_whitespace c = true) s.

(** Exactly six decimal digits. *)
Definition six_digits (s : jsstring) : Prop :=
  length s = 6%nat /\ Forall (fun c => (48 <= c <= 57)%N) s.







(** The seven fields of the order form and the check each must pass. *)
Inductive field :=
| f_name | f_phone | f_address | f_city | f_pin | f_payment | f_quantity.

#[global] Instance field_eq_dec : EqDecision field.
Proof. solve_decision. Defined.

Definition all_fields : list field :=
  [f_name; f_phone; f_address; f_city; f_pin; f_payment; f_quantity].

Definition field_key (f : field) : jsstring :=
  match f with
  | f_name => lit "name"
  | f_phone => lit "phone"
  | f_address => lit "address"
  | f_city => lit "city"
  | f_pin => lit "pin"
  | f_payment => lit "payment"
  | f_quantity => lit "quantity"
  end.

(** Quantity: parsed as an integer, in [1, 10]. *)
Definition quantity_in_range (quantity : option jsstring) : bool :=
  match parseInt quantity with
  | Int n => (1 <=? n) && (n <=? 10)
  | NaN => false
  end.

Definition passes (formData : gmap jsstring jsstring) (f : field) : bool :=
  match f with
  | f_name =>
      Validator.isValid (Validator.validateName (formData !! lit "name"))
  | f_phone =>
      Validator.phone_isValid
        (Validator.validatePhone (formData !! lit "phone"))
  | f_address =>
      Validator.isValid (Validator.validateAddress (formData !! lit "address"))
  | f_city =>
      (* present, and trimmed length at least 2 *)
      negb (OrderManager.blank (formData !! lit "city"))
      && (2 <=? str_length (trim (or_empty (formData !! lit "city"))))
  | f_pin =>
      Validator.isValid (Validator.validatePIN (formData !! lit "pin"))
  | f_payment =>
      (* present and non-empty *)
      negb (OrderManager.blank (formData !! lit "payment"))
  | f_quantity =>
      quantity_in_range (formData !! lit "quantity")
  end.

(** The message reported for a failing field. *)
Definition message_of (f : field) : jsstring :=
  match f with
  | f_name => lit "Name must be at least 2 characters long"
  | f_phone => lit "Please enter a valid 10-digit Indian mobile number"
  | f_address => lit "Address must be at least 10 characters long"
  | f_city => lit "Please enter a valid city name"
  | f_pin => lit "Please enter a valid 6-digit PIN code"
  | f_payment => lit "Please select a payment method"
  | f_quantity => lit "Quantity must be between 1 and 10"
  end.

(** One step of the accumulation: a failing check adds its entry. *)
Definition report (formData : gmap jsstring jsstring) (f : field)
  (es : gmap jsstring jsstring) : gmap jsstring jsstring :=
  if passes formData f then es else <[field_key f := message_of f]> es.

(** [find] by identifier over any list of products. *)
Definition find_by_id (products : list Product.t) (productId : jsstring)
  : option Product.t :=
  List.find (fun product => bool_decide (Product.id product = productId))
            products.

Definition no_selection_error : jsstring :=
  lit "No product selected. Please select a product from the menu first.".

Definition save_failed_error : jsstring :=
  lit "Failed to save order. Please try again.".

(** The booking [processOrder] assembles once the selection has been read
    and the form has passed validation. *)
Definition assembled_booking `{Host} (selectedProduct : value)
  (formData : gmap jsstring jsstring) (readings : Readings) : Booking.t :=
  let validation := OrderManager.validateOrderForm formData in
  {| Booking.id :=
       OrderManager.generateOrderId (orderId_now readings)
                                    (orderId_random readings);
     Booking.createdAt := Date_toISOString (createdAt_now readings);
     Booking.status := lit "confirmed";
     Booking.customer := OrderManager.validatedData validation;
     Booking.product := selectedProduct;
     Booking.eta :=
       OrderManager.generateETA (eta_today readings) (eta_random readings);
     Booking.totalAmount :=
       js_mul (ToNumber (property selectedProduct (lit "price")))
              (parseInt (OrderManager.validatedData validation
                         !! lit "quantity")) |}.

Definition zero_amount : jsstring := CONFIG.CURRENCY.SYMBOL ++ lit "0".

(* ===================================================================== *)
(** ** A host to run the model on                                        *)
(* ===================================================================== *)

(** Unlimited quota, Indian Standard Time, and the decimal time value as a
    stand-in for the date and fraction formats. *)
Definition roomy_host : Host :=
  {| quota_allows := fun _ _ _ => true;
     LocalTZA := fun _ => 19800000;
     Date_toISOString := fun t => lit (pretty t);
     Date_toLocaleDateString := fun t => lit (pretty t);
     fraction_toString36 := fun _ => lit "0.4fzyo82mvyr";
     StringToNumber := parseInt_string;
     Array_toString := fun _ => [] |}.

(** The same host with an area that accepts no further write. *)
Definition full_host : Host :=
  {| quota_allows := fun _ _ _ => false;
     LocalTZA := fun _ => 19800000;
     Date_toISOString := fun t => lit (pretty t);
     Date_toLocaleDateString := fun t => lit (pretty t);
     fraction_toString36 := fun _ => lit "0.4fzyo82mvyr";
     StringToNumber := parseInt_string;
     Array_toString := fun _ => [] |}.

(** A host whose case mapping is the ASCII one. *)
Definition ascii_casing : Casing :=
  {| String_toLowerCase := ascii_lower;
     String_toLowerCase_ascii := fun _ _ => eq_refl |}.

Definition empty_world : World :=
  {| storage_blocked := false; localStorage := ∅; trace := [] |}.

(** The last product of the catalog. *)
Definition old_monk_rum : Product.t :=
  {| Product.id := lit "old-monk-rum";
     Product.name := lit "Old Monk Dark Rum";
     Product.price := 499; Product.abv := 42;
     Product.image := lit "images/oldmonk.jpg";
     Product.category := lit "rum";
     Product.description := lit "Classic Indian dark rum with vanilla notes" |}.

(** A form the order page could submit. *)
Definition sample_form : gmap jsstring jsstring :=
  <[lit "name" := lit "Asha Rao"]>
  (<[lit "phone" := lit "987 654 3210"]>
  (<[lit "address" := lit "12 MG Road, Indiranagar"]>
  (<[lit "city" := lit "Bengaluru"]>
  (<[lit "pin" := lit "560038"]>
  (<[lit "payment" := lit "cod"]>
  (<[lit "quantity" := lit "3"]> ∅)))))).

(** The same form with a PIN of five digits. *)
Definition short_pin_form : gmap jsstring jsstring :=
  <[lit "pin" := lit "12345"]> sample_form.

(** An order page filled in, the quantity left empty. *)
Definition sample_page : OrderPage.t :=
  {| OrderPage.customerName := Some (lit "Asha Rao");
     OrderPage.phone := Some (lit "987 654 3210");
     OrderPage.address := Some (lit "12 MG Road, Indiranagar");
     OrderPage.city := Some (lit "Bengaluru");
     OrderPage.pin := Some (lit "560038");
     OrderPage.payment := Some (lit "cod");
     OrderPage.quantity := Some [] |}.

(** A Wednesday noon (UTC) and fixed draws. *)
Definition sample_readings : Readings :=
  {| orderId_now := 1700000000000;
     orderId_random := 3 # 10;
     eta_today := 1700049600000;
     eta_random := 7 # 10;
     createdAt_now := 1700000000001 |}.

(** A world in which Old Monk has been selected. *)
Definition selected_world : World :=
  {| storage_blocked := false;
     localStorage :=
       {[ CONFIG.STORAGE_KEYS.SELECTED_PRODUCT := Text (as_value old_monk_rum) ]};
     trace := [] |}.

(* ===================================================================== *)
(** ** Strings: trimming and whitespace removal                          *)
(* ===================================================================== *)

Lemma remove_whitespace_app (s t : jsstring) :
  remove_whitespace (s ++ t) = remove_whitespace s ++ remove_whitespace t.
Proof. unfold remove_whitespace. apply filter_app. Qed.

Lemma remove_whitespace_rev (s : jsstring) :
  remove_whitespace (rev s) = rev (remove_whitespace s).
Proof.
  induction s as [|c s IH]; [reflexivity|].
  cbn [rev]. rewrite remove_whitespace_app, IH.
  unfold remove_whitespace at 2 3. rewrite filter_cons, filter_cons, filter_nil.
  destruct (decide (is_whitespace c = false)); cbn [rev]; [reflexivity|].
  apply app_nil_r.
Qed.

Lemma remove_whitespace_trimStart (s : jsstring) :
  remove_whitespace (trimStart s) = remove_whitespace s.
Proof.
  induction s as [|c s IH]; [reflexivity|].
  cbn [trimStart]. destruct (is_whitespace c) eqn:Hc; [|reflexivity].
  rewrite IH. unfold remove_whitespace. rewrite (filter_cons _ c).
  destruct (decide (is_whitespace c = false)); congruence.
Qed.

(** Trimming first does not change what whitespace removal leaves. *)
Lemma remove_whitespace_trim (s : jsstring) :
  remove_whitespace (trim s) = remove_whitespace s.
Proof.
  unfold trim, trimEnd.
  rewrite remove_whitespace_rev, remove_whitespace_trimStart,
    remove_whitespace_rev, rev_involutive.
  apply remove_whitespace_trimStart.
Qed.

Lemma remove_whitespace_spec (s : jsstring) (c : N) :
  c ∈ remove_whitespace s <-> c ∈ s /\ is_whitespace c = false.
Proof. unfold remove_whitespace. rewrite list_elem_of_filter. tauto. Qed.

(* ===================================================================== *)
(** ** Phone numbers                                                     *)
(* ===================================================================== *)

Lemma forallb_is_digit (s : jsstring) :
  forallb is_digit s = true <-> Forall (fun c => (48 <= c <= 57)%N) s.
Proof.
  rewrite forallb_forall, List.Forall_forall. unfold is_digit.
  split; intros Hs c Hc; specialize (Hs c Hc).
  - apply andb_true_iff in Hs as [?%N.leb_le ?%N.leb_le]. lia.
  - apply andb_true_iff. split; apply N.leb_le; lia.
Qed.

(** A class repeated [n] times up to the end of the input. *)
Lemma match_last_piece (k : char_class) (n : nat) (s : jsstring) :
  match_pieces [(k, n)] s = (length s =? n)%nat && forallb (in_class k) s.
Proof.
  cbn [match_pieces]. destruct (Nat.eqb_spec (length s) n) as [<-|Hne].
  - rewrite firstn_all, skipn_all, Nat.eqb_refl. cbn [andb].
    apply andb_true_r.
  - cbn [andb]. destruct (Nat.eqb_spec (length (take n s)) n) as [Hn|];
      [|reflexivity].
    cbn [andb]. rewrite length_take in Hn.
    destruct (drop n s) as [|c r] eqn:Hd; [|apply andb_false_r].
    apply (f_equal length) in Hd. rewrite length_drop in Hd.
    cbn [length] in Hd. lia.
Qed.




(* ===================================================================== *)
(** ** Form validation                                                   *)
(* ===================================================================== *)

Lemma quantity_condition (quantity : option jsstring) :
  isNaN (parseInt quantity)
  || js_lt (parseInt quantity) (Int 1)
  || js_gt (parseInt quantity) (Int 10)
  = negb (quantity_in_range quantity).
Proof.
  unfold quantity_in_range, js_gt, js_lt.
  destruct (parseInt quantity) as [|n]; cbn; [reflexivity|].
  destruct (Z.ltb_spec n 1), (Z.ltb_spec 10 n), (Z.leb_spec 1 n),
    (Z.leb_spec n 10); cbn; try reflexivity; lia.
Qed.

Lemma city_condition (city : option jsstring) :
  OrderManager.blank city || (str_length (trim (or_empty city)) <? 2)
  = negb (negb (OrderManager.blank city)
          && (2 <=? str_length (trim (or_empty city)))).
Proof.
  destruct (OrderManager.blank city); cbn; [reflexivity|].
  destruct (Z.ltb_spec (str_length (trim (or_empty city))) 2),
    (Z.leb_spec 2 (str_length (trim (or_empty city)))); cbn; try reflexivity; lia.
Qed.

(** The accumulation of [validateOrderForm] over the seven fields, in the
    order of the source: each failing check adds its entry and clears
    [isValid]. *)
Lemma validateOrderForm_unfold (formData : gmap jsstring jsstring) :
  OrderManager.errors (OrderManager.validateOrderForm formData)
  = foldl (fun es f => report formData f es) ∅ all_fields /\
  OrderManager.isValid (OrderManager.validateOrderForm formData)
  = forallb (passes formData) all_fields.
Proof.
  unfold OrderManager.validateOrderForm, all_fields, report.
  cbn [foldl forallb passes].
  rewrite quantity_condition, city_condition.
  unfold Validator.validateName, Validator.validatePhone,
    Validator.validateAddress, Validator.validatePIN.
  cbn [Validator.isValid Validator.message Validator.phone_isValid
       Validator.phone_message Validator.value].
  destruct (CONFIG.VALIDATION.MIN_NAME_LENGTH <=? _),
    (RegExp_test CONFIG.VALIDATION.PHONE_REGEX _),
    (CONFIG.VALIDATION.MIN_ADDRESS_LENGTH <=? _),
    (negb (OrderManager.blank (formData !! lit "city")) && _),
    (RegExp_test CONFIG.VALIDATION.PIN_REGEX _),
    (OrderManager.blank (formData !! lit "payment")),
    (quantity_in_range _);
    cbn [negb andb OrderManager.errors OrderManager.isValid];
    split; reflexivity.
Qed.

Lemma validatedData_unfold (formData : gmap jsstring jsstring) :
  OrderManager.validatedData (OrderManager.validateOrderForm formData)
  = <[lit "phone" :=
        Validator.value (Validator.validatePhone (formData !! lit "phone"))]>
      formData.
Proof.
  unfold OrderManager.validateOrderForm.
  repeat match goal with
         | |- context [if ?c then _ else _] => destruct c
         end; reflexivity.
Qed.

Lemma field_key_inj (f g : field) : field_key f = field_key g -> f = g.
Proof. destruct f, g; intros E; first [reflexivity | discriminate E]. Qed.

Lemma report_lookup (formData : gmap jsstring jsstring) (f g : field)
  (es : gmap jsstring jsstring) :
  report formData f es !! field_key g
  = if decide (f = g)
    then (if passes formData f then es !! field_key g
          else Some (message_of f))
    else es !! field_key g.
Proof.
  unfold report. destruct (decide (f = g)) as [->|Hne].
  - destruct (passes formData g); [reflexivity|apply lookup_insert_eq].
  - destruct (passes formData f); [reflexivity|].
    apply lookup_insert_ne. intros E. apply Hne, field_key_inj, E.
Qed.

(** Every field has its entry exactly when its check fails. *)
Lemma errors_lookup (formData : gmap jsstring jsstring) (f : field) :
  OrderManager.errors (OrderManager.validateOrderForm formData) !! field_key f
  = if passes formData f then None else Some (message_of f).
Proof.
  destruct (validateOrderForm_unfold formData) as [-> _].
  unfold all_fields. cbn [foldl]. rewrite !report_lookup.
  destruct f; repeat (case_decide; try congruence);
    rewrite ?lookup_empty; destruct (passes formData _); reflexivity.
Qed.

(** No other key is ever reported. *)
Lemma errors_keys (formData : gmap jsstring jsstring) (k : jsstring) :
  is_Some (OrderManager.errors (OrderManager.validateOrderForm formData) !! k)
  -> exists f, k = field_key f.
Proof.
  destruct (validateOrderForm_unfold formData) as [-> _].
  unfold all_fields, report. cbn [foldl].
  repeat match goal with
         | |- context [if passes formData ?f then _ else _] =>
             destruct (passes formData f)
         end;
  repeat (rewrite lookup_insert; case_decide; [eauto|]);
  rewrite lookup_empty; intros [? [=]].
Qed.

Lemma quantity_in_range_spec (quantity : option jsstring) :
  quantity_in_range quantity = true <->
  exists n, parseInt quantity = Int n /\ 1 <= n <= 10.
Proof.
  unfold quantity_in_range. destruct (parseInt quantity) as [|n].
  - split; [discriminate|]. intros [n [[=] _]].
  - rewrite andb_true_iff, !Z.leb_le. split.
    + intros Hn. exists n. split; [reflexivity|lia].
    + intros [n' [[= <-] Hn]]. lia.
Qed.

Lemma forallb_all_fields (P : field -> bool) :
  forallb P all_fields = true <-> forall f, P f = true.
Proof.
  rewrite forallb_forall. split; intros HP f; [|intros _; apply HP].
  apply HP. destruct f; cbn; tauto.
Qed.

Lemma forallb_exists_false_field (formData : gmap jsstring jsstring) :
  forallb (passes formData) all_fields = false ->
  exists f, passes formData f = false.
Proof.
  unfold all_fields. cbn [forallb]. intros Hv.
  repeat match goal with
         | H : ?b && _ = false |- _ =>
             apply andb_false_iff in H as [H|H]; [eauto|]
         end.
  discriminate Hv.
Qed.

(** Validity is the conjunction of the seven checks, and an invalid form
    has an entry for some failing field. *)
Lemma validateOrderForm_reports_fields (formData : gmap jsstring jsstring) :
  (OrderManager.isValid (OrderManager.validateOrderForm formData) = true <->
   forall f, passes formData f = true) /\
  (OrderManager.isValid (OrderManager.validateOrderForm formData) = false ->
   exists f, passes formData f = false /\
     OrderManager.errors (OrderManager.validateOrderForm formData)
     !! field_key f = Some (message_of f)).
Proof.
  destruct (validateOrderForm_unfold formData) as [_ Hvalid].
  rewrite Hvalid. split; [apply forallb_all_fields|].
  intros Hv. destruct (forallb_exists_false_field formData Hv) as [f Hf].
  exists f. split; [exact Hf|]. rewrite errors_lookup, Hf. reflexivity.
Qed.

(** C3. [validateOrderForm] is a total function of the form data, whatever
    keys are present.  It answers [isValid: true] exactly when all seven
    field checks pass, and then reports no error; otherwise it answers
    [isValid: false] with at least one entry in [errors].  In both cases
    [errors] holds an entry (the field's message) for every failing field
    and for nothing else, so all failures are reported together.
    [validatedData] is the form data with [phone] replaced by the phone
    validator's normalized value; every other key is passed through. *)
Theorem validateOrderForm_reports_every_failing_field
  (formData : gmap jsstring jsstring) :
  let v := OrderManager.validateOrderForm formData in
  (OrderManager.isValid v = true <-> forall f, passes formData f = true) /\
  (OrderManager.isValid v = true -> OrderManager.errors v = ∅) /\
  (OrderManager.isValid v = false ->
   exists f, passes formData f = false /\
             OrderManager.errors v !! field_key f = Some (message_of f)) /\
  (forall f, OrderManager.errors v !! field_key f
             = if passes formData f then None else Some (message_of f)) /\
  (forall k, is_Some (OrderManager.errors v !! k) ->
             exists f, k = field_key f /\ passes formData f = false) /\
  OrderManager.validatedData v !! lit "phone"
  = Some (Validator.value (Validator.validatePhone (formData !! lit "phone"))) /\
  (forall k, k <> lit "phone" ->
             OrderManager.validatedData v !! k = formData !! k).
Proof.
  cbn zeta.
  destruct (validateOrderForm_unfold formData) as [_ Hvalid].
  assert (Hkeys : forall k,
    is_Some (OrderManager.errors (OrderManager.validateOrderForm formData) !! k)
    -> exists f, k = field_key f /\ passes formData f = false).
  { intros k Hk. destruct (errors_keys formData k Hk) as [f ->].
    exists f. split; [reflexivity|].
    rewrite errors_lookup in Hk. destruct (passes formData f);
      [destruct Hk; discriminate | reflexivity]. }
  repeat split.
  - rewrite Hvalid. apply forallb_all_fields.
  - rewrite Hvalid. apply forallb_all_fields.
  - intros Hv. rewrite Hvalid in Hv.
    apply map_eq. intros k. rewrite lookup_empty.
    apply eq_None_not_Some. intros Hk.
    destruct (Hkeys k Hk) as [f [_ Hf]].
    rewrite (proj1 (forallb_all_fields _) Hv f) in Hf. discriminate.
  - intros Hv. rewrite Hvalid in Hv.
    destruct (forallb_exists_false_field formData Hv) as [f Hf].
    exists f. split; [exact Hf|]. rewrite errors_lookup, Hf. reflexivity.
  - apply errors_lookup.
  - exact Hkeys.
  - rewrite validatedData_unfold. apply lookup_insert_eq.
  - intros k Hk. rewrite validatedData_unfold.
    apply lookup_insert_ne. congruence.
Qed.

(* ===================================================================== *)
(** ** Delivery estimate                                                 *)
(* ===================================================================== *)

(** [Math.floor(Math.random() * 4)] is one of 0, 1, 2, 3. *)
Lemma floor_of_draw (random : Q) :
  (0 <= random)%Q -> (random < 1)%Q ->
  0 <= Qfloor (random * inject_Z 4) <= 3.
Proof.
  destruct random as [a b]. unfold Qle, Qlt, Qfloor, Qmult, inject_Z.
  cbn [Qnum Qden]. intros Ha Hb.
  rewrite Pos.mul_1_r. split.
  - apply Z.div_pos; lia.
  - apply Z.lt_succ_r. apply Z.div_lt_upper_bound; lia.
Qed.

Lemma Date_getDay_range `{Host} (t : Z) : 0 <= Date_getDay t <= 6.
Proof.
  unfold Date_getDay.
  pose proof (Z.mod_pos_bound ((t + LocalTZA t) / 86400000 + 4) 7). lia.
Qed.

Lemma relative_label_other (n : Z) :
  n <> 1 ->
  OrderManager.relative_label n = Number_toString (Int n) ++ lit " days".
Proof.
  intros Hn. unfold OrderManager.relative_label.
  destruct (Z.eqb_spec n 1); [contradiction|reflexivity].
Qed.

Lemma relative_label_Tomorrow (n : Z) :
  OrderManager.relative_label n = lit "Tomorrow" <-> n = 1.
Proof.
  split; [|intros ->; reflexivity].
  unfold OrderManager.relative_label.
  destruct (Z.eqb_spec n 1) as [|Hn]; [trivial|]. intros E. exfalso.
  change (lit "Tomorrow") with (lit "Tom" ++ lit "orrow") in E.
  apply app_inj_2 in E as [_ E]; [discriminate E|reflexivity].
Qed.

(** C4. Whenever [Math.random] answers a draw of [0, 1), the [ETA] of
    [generateETA] has [daysFromNow] in [MIN_DAYS, MAX_DAYS] = [2, 5] when
    the current local day is a weekday (Monday to Friday) and in
    [MIN_DAYS + 1, MAX_DAYS + 1] = [3, 6] on a Saturday or Sunday; the day
    is always one of the two.  [date] is the current time plus
    [daysFromNow] days, [dateString] is the locale format of that date, and
    [relative] is the label of [daysFromNow]: "Tomorrow" exactly for 1 and
    "<n> days" otherwise.  All four fields are functions of the one draw. *)
Theorem generateETA_window `{Host} (today : Z) (random : Q) :
  (0 <= random)%Q -> (random < 1)%Q ->
  let eta := OrderManager.generateETA today random in
  let dayOfWeek := Date_getDay today in
  let days := ETA.daysFromNow eta in
  (1 <= dayOfWeek <= 5 ->
   CONFIG.DELIVERY.MIN_DAYS <= days <= CONFIG.DELIVERY.MAX_DAYS /\
   2 <= days <= 5 /\ days = Qfloor (random * inject_Z 4) + 2) /\
  (dayOfWeek = 0 \/ dayOfWeek = 6 ->
   CONFIG.DELIVERY.MIN_DAYS + 1 <= days <= CONFIG.DELIVERY.MAX_DAYS + 1 /\
   3 <= days <= 6 /\ days = Qfloor (random * inject_Z 4) + 2 + 1) /\
  (1 <= dayOfWeek <= 5 \/ dayOfWeek = 0 \/ dayOfWeek = 6) /\
  ETA.date eta = today + days * 86400000 /\
  ETA.dateString eta = Date_toLocaleDateString (ETA.date eta) /\
  ETA.relative eta = OrderManager.relative_label days /\
  (forall n, OrderManager.relative_label n = lit "Tomorrow" <-> n = 1) /\
  (forall n, n <> 1 ->
     OrderManager.relative_label n = Number_toString (Int n) ++ lit " days").
Proof.
  intros H0 H1. cbn zeta.
  pose proof (floor_of_draw random H0 H1) as Hfloor.
  pose proof (Date_getDay_range today) as Hday.
  unfold OrderManager.generateETA.
  cbn [ETA.daysFromNow ETA.date ETA.dateString ETA.relative].
  unfold CONFIG.DELIVERY.MIN_DAYS, CONFIG.DELIVERY.MAX_DAYS,
    CONFIG.DELIVERY.WEEKEND_DELAY.
  change (5 - 2 + 1) with 4.
  split; [|split; [|split; [|split; [|split; [|split; [|split]]]]]].
  - intros Hwd.
    destruct (Z.eqb_spec (Date_getDay today) 0); [lia|].
    destruct (Z.eqb_spec (Date_getDay today) 6); [lia|].
    cbn [orb]. lia.
  - intros Hwe.
    destruct (Z.eqb_spec (Date_getDay today) 0);
      [cbn [orb]; lia|].
    destruct (Z.eqb_spec (Date_getDay today) 6); [|lia].
    cbn [orb]. lia.
  - lia.
  - lia.
  - reflexivity.
  - reflexivity.
  - exact relative_label_Tomorrow.
  - exact relative_label_other.
Qed.

Lemma generateETA_window_witness :
  (0 <= 7 # 10)%Q /\ (7 # 10 < 1)%Q /\
  @Date_getDay roomy_host 1700049600000 = 3 /\
  ETA.daysFromNow (@OrderManager.generateETA roomy_host 1700049600000 (7 # 10))
  = 4 /\
  2 <= ETA.daysFromNow
         (@OrderManager.generateETA roomy_host 1700049600000 (7 # 10)) <= 5.
Proof.
  assert (H0 : (0 <= 7 # 10)%Q) by (unfold Qle; cbn; lia).
  assert (H1 : (7 # 10 < 1)%Q) by (unfold Qlt; cbn; lia).
  assert (Hd : 1 <= @Date_getDay roomy_host 1700049600000 <= 5)
    by (vm_compute; split; discriminate).
  split; [exact H0|]. split; [exact H1|].
  split; [vm_compute; reflexivity|].
  split; [vm_compute; reflexivity|].
  exact (proj1 (proj2
    (proj1 (@generateETA_window roomy_host 1700049600000 (7 # 10) H0 H1) Hd))).
Defined.

(* ===================================================================== *)
(** ** Catalog lookup                                                    *)
(* ===================================================================== *)

Lemma find_by_id_present (products : list Product.t) (p : Product.t) :
  NoDup (map Product.id products) -> In p products ->
  find_by_id products (Product.id p) = Some p.
Proof.
  unfold find_by_id.
  induction products as [|q products IH]; intros Hnd Hin; [destruct Hin|].
  cbn [List.find]. apply NoDup_cons in Hnd as [Hq Hnd].
  destruct Hin as [->|Hin].
  - rewrite bool_decide_eq_true_2; reflexivity.
  - rewrite bool_decide_eq_false_2; [apply IH; assumption|].
    intros E. apply Hq. rewrite E. apply list_elem_of_In, in_map, Hin.
Qed.

Lemma find_by_id_absent (products : list Product.t) (productId : jsstring) :
  (forall p, In p products -> Product.id p <> productId) ->
  find_by_id products productId = None.
Proof.
  unfold find_by_id. induction products as [|q products IH]; intros Hall;
    [reflexivity|].
  cbn [List.find]. rewrite bool_decide_eq_false_2.
  - apply IH. intros p Hp. apply Hall. right. exact Hp.
  - apply Hall. left. reflexivity.
Qed.

Lemma catalog_ids_distinct : NoDup (map Product.id PRODUCT_CATALOG.products).
Proof. apply (bool_decide_unpack _). vm_compute. exact I. Qed.

(** C7. For every product [p] of the catalog, [getProductById(p.id)]
    returns [p]; for every identifier that no catalog product carries it
    returns [null]. *)
Theorem getProductById_finds_exactly_the_catalog :
  (forall p, In p PRODUCT_CATALOG.products ->
             ProductManager.getProductById (Product.id p) = Some p) /\
  (forall productId,
     (forall p, In p PRODUCT_CATALOG.products -> Product.id p <> productId) ->
     ProductManager.getProductById productId = None).
Proof.
  split.
  - intros p Hp. apply (find_by_id_present _ p catalog_ids_distinct Hp).
  - intros productId Hno. apply (find_by_id_absent _ _ Hno).
Qed.

(* ===================================================================== *)
(** ** Storage and selection                                             *)
(* ===================================================================== *)

Ltac run_M := unfold mbind, M_bind, mret, M_ret.

Lemma getItem_cases (key : jsstring) (w : World) :
  (Storage.getItem key w = (VNull, w) \/
   (exists v, Storage.getItem key w = (v, w) /\ storage_blocked w = false /\
              localStorage w !! key = Some (Text v)) \/
   Storage.getItem key w
   = (VNull, snd (emit (console_error (lit "Storage getItem error:")) w))).
Proof.
  unfold Storage.getItem. destruct (storage_blocked w) eqn:Hb; [auto|].
  destruct (localStorage w !! key) as [[v|[|c raw]]|]; eauto 6.
Qed.

(** A truthy read comes from an accessible area and leaves the world as
    it was. *)
Lemma getItem_truthy (key : jsstring) (w : World) :
  truthy (fst (Storage.getItem key w)) = true ->
  Storage.getItem key w = (fst (Storage.getItem key w), w) /\
  storage_blocked w = false /\
  localStorage w !! key = Some (Text (fst (Storage.getItem key w))).
Proof.
  destruct (getItem_cases key w) as [E|[[v [E [Hb Hv]]]|E]]; rewrite E;
    cbn [fst]; intros Ht; try discriminate Ht.
  auto.
Qed.

(** Reading never changes the storage area. *)
Lemma getItem_preserves (key : jsstring) (w : World) :
  localStorage (snd (Storage.getItem key w)) = localStorage w /\
  storage_blocked (snd (Storage.getItem key w)) = storage_blocked w.
Proof.
  destruct (getItem_cases key w) as [E|[[v [E _]]|E]]; rewrite E; auto.
Qed.

Lemma getItem_absent (key : jsstring) (w : World) :
  localStorage w !! key = None -> fst (Storage.getItem key w) = VNull.
Proof.
  intros Hk. unfold Storage.getItem. rewrite Hk.
  destruct (storage_blocked w); reflexivity.
Qed.

Lemma getItem_blocked (key : jsstring) (w : World) :
  storage_blocked w = true -> fst (Storage.getItem key w) = VNull.
Proof. intros Hb. unfold Storage.getItem. rewrite Hb. reflexivity. Qed.

(** A write either fails and leaves the area as it was, or succeeds and
    binds the key to the JSON text of the object. *)
Lemma setItem_cases `{Host} {A} `{AsValue A} (key : jsstring) (obj : A)
  (w : World) :
  let out := Storage.setItem key obj w in
  storage_blocked (snd out) = storage_blocked w /\
  ((fst out = false /\ localStorage (snd out) = localStorage w /\
    (storage_blocked w = true \/
     quota_allows (localStorage w) key (JSON_text (as_value obj)) = false)) \/
   (fst out = true /\ storage_blocked w = false /\
    quota_allows (localStorage w) key (JSON_text (as_value obj)) = true /\
    trace (snd out) = trace w /\
    localStorage (snd out)
    = <[key := JSON_text (as_value obj)]> (localStorage w))).
Proof.
  cbn zeta. unfold Storage.setItem.
  destruct (storage_blocked w) eqn:Hb; cbn [orb]; [auto 6|].
  destruct (quota_allows _ _ _) eqn:Hq; cbn [negb fst snd localStorage
    storage_blocked emit trace]; auto 10.
Qed.

Lemma removeItem_cases (key : jsstring) (w : World) :
  let out := Storage.removeItem key w in
  storage_blocked (snd out) = storage_blocked w /\
  ((fst out = false /\ storage_blocked w = true /\
    localStorage (snd out) = localStorage w) \/
   (fst out = true /\ storage_blocked w = false /\
    localStorage (snd out) = delete key (localStorage w))).
Proof.
  cbn zeta. unfold Storage.removeItem.
  destruct (storage_blocked w) eqn:Hb; cbn; auto 6.
Qed.

(** A catalog product is written as it is: its text reads back as the
    same object. *)
Lemma JSON_text_Product `{Host} (p : Product.t) :
  JSON_text (as_value p) = Text (as_value p).
Proof.
  unfold JSON_text, as_value, Product_AsValue. cbn [JSON_stringify].
  repeat (erewrite omap_insert_Some; [|reflexivity]).
  rewrite omap_empty. reflexivity.
Qed.

Lemma selectProduct_cases `{Host} (productId : jsstring) (p : Product.t)
  (w : World) :
  ProductManager.getProductById productId = Some p ->
  let out := SelectionManager.selectProduct productId w in
  storage_blocked (snd out) = storage_blocked w /\
  ((fst out = false /\ localStorage (snd out) = localStorage w) \/
   (fst out = true /\ storage_blocked w = false /\
    localStorage (snd out)
    = <[CONFIG.STORAGE_KEYS.SELECTED_PRODUCT := Text (as_value p)]>
        (localStorage w))).
Proof.
  intros Hp. cbn zeta. unfold SelectionManager.selectProduct. rewrite Hp.
  run_M.
  pose proof (setItem_cases CONFIG.STORAGE_KEYS.SELECTED_PRODUCT p w) as Hset.
  cbn zeta in Hset.
  destruct (Storage.setItem CONFIG.STORAGE_KEYS.SELECTED_PRODUCT p w)
    as [ok w1].
  cbn [fst snd] in Hset. destruct Hset as [Hb Hset].
  destruct ok; cbn [fst snd UIManager.updateSelectedSummary
    UIManager.showNotification emit storage_blocked localStorage].
  - split; [exact Hb|]. right.
    destruct Hset as [[[=] _]|[_ [Hw [_ [_ Hls]]]]].
    rewrite JSON_text_Product in Hls. auto.
  - split; [exact Hb|]. left.
    destruct Hset as [[_ [Hls _]]|[[=] _]]. auto.
Qed.

Lemma clearSelection_cases (w : World) :
  let out := SelectionManager.clearSelection w in
  storage_blocked (snd out) = storage_blocked w /\
  ((fst out = false /\ storage_blocked w = true /\
    localStorage (snd out) = localStorage w) \/
   (fst out = true /\ storage_blocked w = false /\
    localStorage (snd out)
    = delete CONFIG.STORAGE_KEYS.SELECTED_PRODUCT (localStorage w))).
Proof.
  cbn zeta. unfold SelectionManager.clearSelection. run_M.
  pose proof (removeItem_cases CONFIG.STORAGE_KEYS.SELECTED_PRODUCT w) as Hrm.
  cbn zeta in Hrm.
  destruct (Storage.removeItem CONFIG.STORAGE_KEYS.SELECTED_PRODUCT w)
    as [ok w1].
  cbn [fst snd] in Hrm.
  destruct ok; cbn [fst snd UIManager.updateSelectedSummary emit
    storage_blocked localStorage]; exact Hrm.
Qed.

(** C8. For every identifier of a catalog product, [selectProduct(id)]
    followed by [clearSelection()] and [getSelectedProduct()] reads the
    absent indicator [null].  When the selection was stored, it was read
    back as the product before clearing; a successful clear removes the
    key from the storage area, and clearing succeeds whenever the area is
    accessible. *)
Theorem select_then_clear_reads_absent `{Host} (productId : jsstring)
  (p : Product.t) (w : World) :
  ProductManager.getProductById productId = Some p ->
  let selected := SelectionManager.selectProduct productId w in
  let cleared := SelectionManager.clearSelection (snd selected) in
  let read := SelectionManager.getSelectedProduct (snd cleared) in
  fst read = VNull /\
  (fst selected = true ->
   fst (SelectionManager.getSelectedProduct (snd selected)) = as_value p) /\
  (fst cleared = true ->
   localStorage (snd cleared) !! CONFIG.STORAGE_KEYS.SELECTED_PRODUCT = None) /\
  (storage_blocked w = false -> fst cleared = true).
Proof.
  intros Hp. cbn zeta.
  pose proof (selectProduct_cases productId p w Hp) as [Hb1 Hsel].
  pose proof (clearSelection_cases
                (snd (SelectionManager.selectProduct productId w)))
    as [Hb2 Hclr].
  cbn zeta in Hb1, Hsel, Hb2, Hclr.
  set (w1 := snd (SelectionManager.selectProduct productId w)) in *.
  set (w2 := snd (SelectionManager.clearSelection w1)) in *.
  unfold SelectionManager.getSelectedProduct.
  repeat split.
  - destruct Hclr as [[_ [Hblk _]]|[_ [_ Hls]]].
    + apply getItem_blocked. congruence.
    + apply getItem_absent. rewrite Hls. apply lookup_delete_eq.
  - intros Hok. destruct Hsel as [[Hno _]|[_ [Hblk Hls]]]; [congruence|].
    unfold Storage.getItem. rewrite Hb1, Hblk, Hls, lookup_insert_eq.
    reflexivity.
  - intros Hok. destruct Hclr as [[Hno _]|[_ [_ Hls]]]; [congruence|].
    rewrite Hls. apply lookup_delete_eq.
  - intros Hblk. destruct Hclr as [[_ [Hblk1 _]]|[Hok _]]; [congruence|].
    exact Hok.
Qed.

Lemma select_then_clear_reads_absent_witness :
  ProductManager.getProductById (lit "old-monk-rum")
  = nth_error PRODUCT_CATALOG.products 5 /\
  fst (SelectionManager.getSelectedProduct
         (snd (SelectionManager.clearSelection
            (snd (@SelectionManager.selectProduct roomy_host
                    (lit "old-monk-rum") empty_world)))))
  = VNull.
Proof.
  assert (Hp : ProductManager.getProductById (lit "old-monk-rum")
               = Some (old_monk_rum)) by (vm_compute; reflexivity).
  split; [exact Hp|].
  exact (proj1 (@select_then_clear_reads_absent roomy_host
                  (lit "old-monk-rum") old_monk_rum empty_world Hp)).
Defined.

(* ===================================================================== *)
(** ** Order processing                                                  *)
(* ===================================================================== *)

(** The three exits of [processOrder], in the order of the source. *)
Lemma processOrder_unfold `{Host} (formData : gmap jsstring jsstring)
  (readings : Readings) (w : World) :
  OrderManager.processOrder formData readings w
  = let '(selectedProduct, w0) := SelectionManager.getSelectedProduct w in
    if negb (truthy selectedProduct) then
      (OrderManager.no_selection no_selection_error, w0)
    else if negb (OrderManager.isValid
                    (OrderManager.validateOrderForm formData)) then
      (OrderManager.invalid_form
         (OrderManager.errors (OrderManager.validateOrderForm formData)), w0)
    else
      let booking := assembled_booking selectedProduct formData readings in
      let '(success, w1) :=
        Storage.setItem CONFIG.STORAGE_KEYS.BOOKING_DATA booking w0 in
      (OrderManager.submitted success
         (if success then Some booking else None)
         (if success then None else Some save_failed_error), w1).
Proof.
  unfold OrderManager.processOrder. run_M.
  destruct (SelectionManager.getSelectedProduct w) as [sel w0].
  destruct (negb (truthy sel)); [reflexivity|].
  destruct (negb (OrderManager.isValid _)); reflexivity.
Qed.

(** The stored text of a booking is an object whose [id] is the order
    identifier. *)
Lemma JSON_text_Booking_id `{Host} (b : Booking.t) :
  exists v, JSON_text (as_value b) = Text v /\
            property v (lit "id") = VStr (Booking.id b).
Proof.
  unfold JSON_text, as_value at 1, Booking_AsValue. cbn [JSON_stringify].
  eexists. split; [reflexivity|].
  cbn [property]. rewrite lookup_omap, lookup_insert_eq. reflexivity.
Qed.

(** The quantity read back from [validatedData] is the form's. *)
Lemma validatedData_quantity (formData : gmap jsstring jsstring) :
  OrderManager.validatedData (OrderManager.validateOrderForm formData)
  !! lit "quantity" = formData !! lit "quantity".
Proof. rewrite validatedData_unfold. apply lookup_insert_ne. discriminate. Qed.

(** C2. For every form input, when no selection is persisted (the read of
    the selection is [null] or otherwise falsy), [processOrder] fails with
    the single no-product-selected error string and attaches neither a
    field-error mapping nor a booking, whatever the form holds.  The
    validation failure has another shape: with a selection and an invalid
    form, the result carries the non-empty field-error mapping and no
    error string, and differs from the no-selection result. *)
Theorem processOrder_without_selection `{Host}
  (formData : gmap jsstring jsstring) (readings : Readings) (w : World) :
  truthy (fst (SelectionManager.getSelectedProduct w)) = false ->
  let r := fst (OrderManager.processOrder formData readings w) in
  r = OrderManager.no_selection no_selection_error /\
  OrderManager.success r = false /\
  OrderManager.result_error r = Some no_selection_error /\
  OrderManager.result_errors r = None /\
  OrderManager.result_booking r = None /\
  (forall formData' readings' w',
     truthy (fst (SelectionManager.getSelectedProduct w')) = true ->
     OrderManager.isValid (OrderManager.validateOrderForm formData') = false ->
     let r' := fst (OrderManager.processOrder formData' readings' w') in
     let es := OrderManager.errors (OrderManager.validateOrderForm formData') in
     r' = OrderManager.invalid_form es /\
     es <> ∅ /\
     OrderManager.success r' = false /\
     OrderManager.result_errors r' = Some es /\
     OrderManager.result_error r' = None /\
     r' <> r).
Proof.
  intros Hsel. cbn zeta.
  assert (Hr : fst (OrderManager.processOrder formData readings w)
               = OrderManager.no_selection no_selection_error).
  { rewrite processOrder_unfold.
    destruct (SelectionManager.getSelectedProduct w) as [sel w0].
    cbn [fst] in Hsel. rewrite Hsel. reflexivity. }
  rewrite Hr. do 5 (split; [reflexivity|]).
  intros formData' readings' w' Hsel' Hinv. cbn zeta.
  assert (Hr' : fst (OrderManager.processOrder formData' readings' w')
                = OrderManager.invalid_form
                    (OrderManager.errors
                       (OrderManager.validateOrderForm formData'))).
  { rewrite processOrder_unfold.
    destruct (SelectionManager.getSelectedProduct w') as [sel w0].
    cbn [fst] in Hsel'. rewrite Hsel', Hinv. reflexivity. }
  rewrite Hr'. split; [reflexivity|].
  split; [|repeat split; discriminate].
  intros Hempty.
  destruct (validateOrderForm_reports_fields formData') as [_ Hsome].
  destruct (Hsome Hinv) as [f [_ Hf]].
  rewrite Hempty, lookup_empty in Hf. discriminate.
Qed.

Lemma processOrder_without_selection_witness :
  truthy (fst (SelectionManager.getSelectedProduct empty_world)) = false /\
  fst (@OrderManager.processOrder roomy_host sample_form sample_readings
         empty_world)
  = OrderManager.no_selection no_selection_error.
Proof.
  split; [reflexivity|].
  exact (proj1 (@processOrder_without_selection roomy_host sample_form
                  sample_readings empty_world eq_refl)).
Defined.

(** C10. [processOrder] is atomic on its first two failure modes: when no
    selection is read, or a selection is read and the form fails
    validation, the storage area after the call is the area before it, so
    the stored booking and the stored selection are what they were.  In
    every case the area afterwards is either unchanged or the area before
    with the booking key bound to the text of the assembled booking, which
    happens only after a selection was read and validation succeeded; no
    other key, the selection included, is ever written. *)
Theorem processOrder_writes_only_the_booking `{Host}
  (formData : gmap jsstring jsstring) (readings : Readings) (w : World) :
  let sel := fst (SelectionManager.getSelectedProduct w) in
  let valid := OrderManager.isValid (OrderManager.validateOrderForm formData) in
  let out := OrderManager.processOrder formData readings w in
  let booking := assembled_booking sel formData readings in
  (truthy sel = false ->
   fst out = OrderManager.no_selection no_selection_error /\
   localStorage (snd out) = localStorage w) /\
  (truthy sel = true -> valid = false ->
   fst out = OrderManager.invalid_form
               (OrderManager.errors (OrderManager.validateOrderForm formData)) /\
   localStorage (snd out) = localStorage w) /\
  (localStorage (snd out) = localStorage w \/
   (truthy sel = true /\ valid = true /\
    OrderManager.success (fst out) = true /\
    localStorage (snd out)
    = <[CONFIG.STORAGE_KEYS.BOOKING_DATA := JSON_text (as_value booking)]>
        (localStorage w))) /\
  (forall k, k <> CONFIG.STORAGE_KEYS.BOOKING_DATA ->
             localStorage (snd out) !! k = localStorage w !! k) /\
  localStorage (snd out) !! CONFIG.STORAGE_KEYS.SELECTED_PRODUCT
  = localStorage w !! CONFIG.STORAGE_KEYS.SELECTED_PRODUCT /\
  storage_blocked (snd out) = storage_blocked w.
Proof.
  cbn zeta. rewrite processOrder_unfold.
  unfold SelectionManager.getSelectedProduct.
  pose proof (getItem_preserves CONFIG.STORAGE_KEYS.SELECTED_PRODUCT w)
    as [Hls0 Hb0].
  destruct (Storage.getItem CONFIG.STORAGE_KEYS.SELECTED_PRODUCT w)
    as [sel w0].
  cbn [fst snd] in *.
  assert (Hgoal : forall out : OrderManager.result * World,
    (localStorage (snd out) = localStorage w \/
     (truthy sel = true /\
      OrderManager.isValid (OrderManager.validateOrderForm formData) = true /\
      OrderManager.success (fst out) = true /\
      localStorage (snd out)
      = <[CONFIG.STORAGE_KEYS.BOOKING_DATA :=
            JSON_text (as_value (assembled_booking sel formData readings))]>
          (localStorage w))) ->
    (forall k, k <> CONFIG.STORAGE_KEYS.BOOKING_DATA ->
               localStorage (snd out) !! k = localStorage w !! k) /\
    localStorage (snd out) !! CONFIG.STORAGE_KEYS.SELECTED_PRODUCT
    = localStorage w !! CONFIG.STORAGE_KEYS.SELECTED_PRODUCT).
  { intros out [->|[_ [_ [_ ->]]]]; [auto|]. split.
    - intros k Hk. apply lookup_insert_ne. congruence.
    - apply lookup_insert_ne. discriminate. }
  destruct (truthy sel) eqn:Hsel; cbn [negb].
  - destruct (OrderManager.isValid _) eqn:Hvalid; cbn [negb].
    + pose proof (setItem_cases CONFIG.STORAGE_KEYS.BOOKING_DATA
                    (assembled_booking sel formData readings) w0) as Hset.
      cbn zeta in Hset.
      destruct (Storage.setItem _ _ w0) as [ok w1]. cbn [fst snd] in *.
      destruct Hset as [Hb1 Hset].
      assert (Hstep : localStorage w1 = localStorage w \/
        (true = true /\ true = true /\ ok = true /\
         localStorage w1
         = <[CONFIG.STORAGE_KEYS.BOOKING_DATA :=
               JSON_text (as_value (assembled_booking sel formData readings))]>
             (localStorage w))).
      { destruct Hset as [[_ [Hls _]]|[Hok [_ [_ [_ Hls]]]]].
        - left. congruence.
        - right. rewrite Hls, Hls0. auto. }
      split; [discriminate|]. split; [discriminate|].
      split; [exact Hstep|].
      destruct (Hgoal (OrderManager.submitted ok
                  (if ok then Some (assembled_booking sel formData readings)
                   else None)
                  (if ok then None else Some save_failed_error), w1) Hstep)
        as [Hk Hs].
      split; [exact Hk|]. split; [exact Hs|].
      change (storage_blocked w1 = storage_blocked w). congruence.
    + cbn [fst snd]. rewrite Hls0, Hb0.
      split; [discriminate|]. split; [auto|]. auto.
  - cbn [fst snd]. rewrite Hls0, Hb0.
    split; [auto|]. split; [discriminate|]. auto.
Qed.

(** C1. For every form whose seven fields pass validation, and whenever
    the selection read is a product (a product record whose price, taken
    ten times, is still an integer that numbers represent exactly),
    [processOrder] returns [success] exactly when the write of the booking
    succeeds.  The booking it assembles carries the selection as [product]
    and has [totalAmount] equal to the product's price times the quantity
    parsed as an integer (an integer between 1 and 10).  When the write
    succeeds the result is that booking without error, and a subsequent
    read of the persisted booking returns a record with the same [id].
    When the write fails the result is [success: false] with no booking and
    the retry error string, and the storage area is unchanged. *)
Theorem processOrder_valid_form_with_selection `{Host}
  (formData : gmap jsstring jsstring) (readings : Readings) (w : World)
  (p : Product.t) :
  fst (SelectionManager.getSelectedProduct w) = as_value p ->
  safe_integer (Product.price p * 10) ->
  OrderManager.isValid (OrderManager.validateOrderForm formData) = true ->
  let sel := fst (SelectionManager.getSelectedProduct w) in
  let booking := assembled_booking sel formData readings in
  let persisted :=
    fst (Storage.setItem CONFIG.STORAGE_KEYS.BOOKING_DATA booking w) in
  let out := OrderManager.processOrder formData readings w in
  OrderManager.success (fst out) = persisted /\
  Booking.product booking = as_value p /\
  (exists q,
     parseInt (formData !! lit "quantity") = Int q /\ 1 <= q <= 10 /\
     Booking.totalAmount booking = Int (Product.price p * q) /\
     safe_integer (Product.price p * q)) /\
  (persisted = true ->
   fst out = OrderManager.submitted true (Some booking) None /\
   property (fst (Storage.getItem CONFIG.STORAGE_KEYS.BOOKING_DATA (snd out)))
            (lit "id")
   = VStr (Booking.id booking)) /\
  (persisted = false ->
   fst out = OrderManager.submitted false None (Some save_failed_error) /\
   localStorage (snd out) = localStorage w).
Proof.
  intros Hproduct Hsafe Hvalid. cbn zeta.
  assert (Hsel : truthy (fst (SelectionManager.getSelectedProduct w)) = true)
    by (rewrite Hproduct; reflexivity).
  rewrite processOrder_unfold.
  unfold SelectionManager.getSelectedProduct in *.
  destruct (getItem_truthy _ _ Hsel) as [Hread [Hblk _]].
  set (sel := fst (Storage.getItem _ w)) in *.
  rewrite Hread, Hsel, Hvalid. cbn [negb]. cbn zeta.
  set (booking := assembled_booking sel formData readings).
  pose proof (setItem_cases CONFIG.STORAGE_KEYS.BOOKING_DATA booking w) as Hset.
  cbn zeta in Hset.
  destruct (Storage.setItem CONFIG.STORAGE_KEYS.BOOKING_DATA booking w)
    as [ok w1].
  cbn [fst snd] in *. destruct Hset as [Hb1 Hset].
  split; [reflexivity|]. split; [exact Hproduct|]. split.
  - destruct (proj1 (validateOrderForm_reports_fields formData)) as [Hall _].
    pose proof (Hall Hvalid f_quantity) as Hq. cbn [passes] in Hq.
    apply quantity_in_range_spec in Hq as [q [Hq Hrange]].
    exists q. split; [exact Hq|]. split; [exact Hrange|].
    assert (Hprice : property sel (lit "price")
                     = VNum (Int (Product.price p))).
    { rewrite Hproduct. unfold as_value, Product_AsValue. cbn [property].
      rewrite !lookup_insert_ne by discriminate.
      rewrite lookup_insert_eq. reflexivity. }
    split.
    + unfold booking, assembled_booking. cbn [Booking.totalAmount].
      rewrite validatedData_quantity, Hq, Hprice. reflexivity.
    + unfold safe_integer in *. rewrite Z.abs_mul in *.
      rewrite (Z.abs_eq 10) in Hsafe by lia. rewrite (Z.abs_eq q) by lia.
      pose proof (Z.abs_nonneg (Product.price p)). nia.
  - split.
    + intros ->. split; [reflexivity|].
      destruct Hset as [[[=] _]|[_ [_ [_ [_ Hls]]]]].
      destruct (JSON_text_Booking_id booking) as [v [Hv Hid]].
      unfold Storage.getItem. rewrite Hb1, Hblk, Hls, lookup_insert_eq, Hv.
      exact Hid.
    + intros ->. split; [reflexivity|].
      destruct Hset as [[_ [Hls _]]|[[=] _]]. exact Hls.
Qed.

Lemma processOrder_valid_form_with_selection_witness :
  fst (SelectionManager.getSelectedProduct selected_world)
  = as_value old_monk_rum /\
  safe_integer (Product.price old_monk_rum * 10) /\
  OrderManager.isValid (OrderManager.validateOrderForm sample_form) = true /\
  OrderManager.success
    (fst (@OrderManager.processOrder roomy_host sample_form sample_readings
            selected_world))
  = true /\
  OrderManager.success
    (fst (@OrderManager.processOrder full_host sample_form sample_readings
            selected_world))
  = false.
Proof.
  assert (Hsel : fst (SelectionManager.getSelectedProduct selected_world)
                 = as_value old_monk_rum)
    by (vm_compute; reflexivity).
  assert (Hsafe : safe_integer (Product.price old_monk_rum * 10))
    by (unfold safe_integer; cbn; lia).
  assert (Hvalid : OrderManager.isValid
                     (OrderManager.validateOrderForm sample_form) = true)
    by (vm_compute; reflexivity).
  split; [exact Hsel|]. split; [exact Hsafe|]. split; [exact Hvalid|]. split.
  - exact (proj1 (@processOrder_valid_form_with_selection roomy_host
                    sample_form sample_readings selected_world old_monk_rum
                    Hsel Hsafe Hvalid)).
  - exact (proj1 (@processOrder_valid_form_with_selection full_host
                    sample_form sample_readings selected_world old_monk_rum
                    Hsel Hsafe Hvalid)).
Defined.

(* ===================================================================== *)
(** ** Currency                                                          *)
(* ===================================================================== *)

(** C9. [formatCurrency(1299)] is the rupee sign followed by the grouped
    digits "1,299", so it contains "1,299", and nothing is logged.  For
    every argument that is not a number, and for [NaN], [formatCurrency]
    returns the zero-amount string (the rupee sign followed by "0") after
    logging one warning; it is a total function, so it never throws, and it
    leaves the storage area alone. *)
Theorem formatCurrency_groups_and_defaults (w : World) :
  formatCurrency (VNum (Int 1299)) w
  = (CONFIG.CURRENCY.SYMBOL ++ lit "1,299", w) /\
  includes (fst (formatCurrency (VNum (Int 1299)) w)) (lit "1,299") = true /\
  starts_with CONFIG.CURRENCY.SYMBOL (fst (formatCurrency (VNum (Int 1299)) w))
  = true /\
  (forall amount,
     typeof amount <> "number"%string \/ amount = VNum NaN ->
     fst (formatCurrency amount w) = zero_amount /\
     trace (snd (formatCurrency amount w))
     = trace w
       ++ [console_warn (lit "Invalid amount provided to formatCurrency:")] /\
     localStorage (snd (formatCurrency amount w)) = localStorage w).
Proof.
  split; [reflexivity|]. split; [reflexivity|]. split; [reflexivity|].
  intros amount Hna.
  destruct amount as [| |b|[|z]|s|t|l|m]; try (repeat split; reflexivity).
  destruct Hna as [Hty|[=]]. exfalso. apply Hty. reflexivity.
Qed.

(* ===================================================================== *)
(** ** The model on concrete inputs                                      *)
(* ===================================================================== *)

Example formatCurrency_sample :
  fst (formatCurrency (VNum (Int 1234567)) empty_world)
  = CONFIG.CURRENCY.SYMBOL ++ lit "12,34,567".
Proof. vm_compute. reflexivity. Qed.

Example integer_toString36_sample :
  integer_toString36 1700000000000 = lit "loyw3v28" /\
  integer_toString36 35 = lit "z" /\ integer_toString36 36 = lit "10" /\
  integer_toString36 0 = lit "0".
Proof. vm_compute. repeat split; reflexivity. Qed.

Example generateOrderId_sample :
  @OrderManager.generateOrderId roomy_host 1700000000000 (3 # 10)
  = lit "LLX-LOYW3V28-4FZY".
Proof. vm_compute. reflexivity. Qed.

Example empty_form_reports_all_seven :
  OrderManager.isValid (OrderManager.validateOrderForm ∅) = false /\
  size (OrderManager.errors (OrderManager.validateOrderForm ∅)) = 7%nat.
Proof. vm_compute. split; reflexivity. Qed.

Example sample_form_valid :
  OrderManager.isValid (OrderManager.validateOrderForm sample_form) = true.
Proof. vm_compute. reflexivity. Qed.

Example parseInt_samples :
  parseInt (Some (lit "10")) = Int 10 /\ parseInt (Some (lit "abc")) = NaN /\
  parseInt (Some (lit " -7x")) = Int (-7) /\ parseInt None = NaN /\
  parseInt (Some []) = NaN.
Proof. repeat split; reflexivity. Qed.

Example processOrder_sample :
  exists b,
    fst (@OrderManager.processOrder roomy_host sample_form sample_readings
           selected_world)
    = OrderManager.submitted true (Some b) None /\
    Booking.id b = lit "LLX-LOYW3V28-4FZY" /\
    Booking.totalAmount b = Int 1497 /\
    ETA.daysFromNow (Booking.eta b) = 4 /\
    Booking.customer b !! lit "phone" = Some (lit "9876543210").
Proof. eexists. vm_compute. repeat split; reflexivity. Qed.

(* ===================================================================== *)
(** ** Storage: round trips and reset                                    *)
(* ===================================================================== *)

(** What a read returns is decided by the access flag and the entry. *)
Lemma getItem_fst (key : jsstring) (w : World) :
  fst (Storage.getItem key w)
  = if storage_blocked w then VNull
    else match localStorage w !! key with
         | Some (Text v) => v
         | _ => VNull
         end.
Proof.
  unfold Storage.getItem. destruct (storage_blocked w); [reflexivity|].
  destruct (localStorage w !! key) as [[v|[|c raw]]|]; reflexivity.
Qed.

(** X1. When [Storage.setItem(key, obj)] reports success, a following
    [Storage.getItem(key)] returns what [JSON.parse(JSON.stringify(obj))]
    is ([null] when [obj] is [undefined], whose stored text does not
    parse), and every other key reads as it did before the write. *)
Theorem setItem_then_getItem `{Host} {A : Type} `{AsValue A}
  (key key' : jsstring) (obj : A) (w : World) :
  fst (Storage.setItem key obj w) = true ->
  let w' := snd (Storage.setItem key obj w) in
  fst (Storage.getItem key w')
  = default VNull (JSON_stringify (as_value obj)) /\
  (key' <> key ->
   fst (Storage.getItem key' w') = fst (Storage.getItem key' w)).
Proof.
  intros Hok. cbn zeta.
  destruct (setItem_cases key obj w) as [Hb [[Hno _]|[_ [Hblk [_ [_ Hls]]]]]];
    [congruence|].
  rewrite !getItem_fst, Hb, Hblk, Hls. split.
  - rewrite lookup_insert_eq. unfold JSON_text.
    destruct (JSON_stringify (as_value obj)); reflexivity.
  - intros Hne. rewrite lookup_insert_ne by congruence. reflexivity.
Qed.

Lemma setItem_then_getItem_witness :
  fst (@Storage.setItem roomy_host _ _ CONFIG.STORAGE_KEYS.SELECTED_PRODUCT
         old_monk_rum empty_world) = true /\
  fst (Storage.getItem CONFIG.STORAGE_KEYS.SELECTED_PRODUCT
         (snd (@Storage.setItem roomy_host _ _
                 CONFIG.STORAGE_KEYS.SELECTED_PRODUCT old_monk_rum
                 empty_world)))
  = default VNull (@JSON_stringify roomy_host (as_value old_monk_rum)).
Proof.
  assert (Hok : fst (@Storage.setItem roomy_host _ _
                       CONFIG.STORAGE_KEYS.SELECTED_PRODUCT
                       old_monk_rum empty_world) = true)
    by (vm_compute; reflexivity).
  split; [exact Hok|].
  exact (proj1 (@setItem_then_getItem roomy_host _ _
                  CONFIG.STORAGE_KEYS.SELECTED_PRODUCT
                  CONFIG.STORAGE_KEYS.BOOKING_DATA
                  old_monk_rum empty_world Hok)).
Defined.

(** X2. After [Storage.removeItem(key)], [Storage.getItem(key)] returns
    [null] and every other key reads as before.  The removal reports
    success exactly when the storage area is accessible, also when the key
    was not there, in which case the area is unchanged. *)
Theorem removeItem_then_getItem (key key' : jsstring) (w : World) :
  let out := Storage.removeItem key w in
  fst (Storage.getItem key (snd out)) = VNull /\
  (key' <> key ->
   fst (Storage.getItem key' (snd out)) = fst (Storage.getItem key' w)) /\
  (fst out = true <-> storage_blocked w = false) /\
  (localStorage w !! key = None -> localStorage (snd out) = localStorage w).
Proof.
  cbn zeta.
  destruct (removeItem_cases key w)
    as [Hb [[Hno [Hblk Hls]]|[Hok [Hblk Hls]]]];
    rewrite !getItem_fst, Hb, Hblk, Hls.
  - split; [reflexivity|]. split; [reflexivity|].
    split; [rewrite Hno; split; discriminate|reflexivity].
  - rewrite lookup_delete_eq. split; [reflexivity|].
    split; [intros Hne; rewrite lookup_delete_ne by congruence; reflexivity|].
    split; [rewrite Hok; tauto|]. apply delete_id.
Qed.

Lemma removeItem_world (key : jsstring) (w : World) :
  let w1 := snd (Storage.removeItem key w) in
  storage_blocked w1 = storage_blocked w /\
  (storage_blocked w = false ->
   trace w1 = trace w /\ localStorage w1 = delete key (localStorage w)) /\
  (storage_blocked w = true ->
   localStorage w1 = localStorage w /\
   trace w1 = trace w ++ [console_error (lit "Storage removeItem error:")]).
Proof.
  cbn zeta. unfold Storage.removeItem.
  destruct (storage_blocked w) eqn:Hblk; cbn; repeat split;
    try discriminate; auto.
Qed.

Lemma forEach_cons {A B : Type} (x : A) (rest : list A) (f : A -> M B)
  (w : World) :
  forEach (x :: rest) f w = forEach rest f (snd (f x w)).
Proof. cbn [forEach]. run_M. destruct (f x w). reflexivity. Qed.

Lemma forEach_removeItem (keys : list jsstring) (w : World) :
  let w' := snd (forEach keys (fun key => Storage.removeItem key) w) in
  storage_blocked w' = storage_blocked w /\
  (storage_blocked w = false ->
   trace w' = trace w /\
   localStorage w' = foldl (fun m key => delete key m) (localStorage w) keys) /\
  (storage_blocked w = true ->
   localStorage w' = localStorage w /\
   trace w'
   = trace w
     ++ map (fun _ => console_error (lit "Storage removeItem error:")) keys).
Proof.
  cbn zeta. revert w. induction keys as [|key keys IH]; intros w.
  - cbn. rewrite app_nil_r. auto.
  - rewrite forEach_cons. cbn [foldl map].
    destruct (removeItem_world key w) as [Hb1 [Hacc1 Hbl1]].
    cbn zeta in Hb1, Hacc1, Hbl1.
    set (w1 := snd (Storage.removeItem key w)) in *.
    destruct (IH w1) as [Hb [Hacc Hbl]].
    split; [congruence|]. split.
    + intros Hblk. destruct (Hacc1 Hblk) as [Htr1 Hls1].
      destruct Hacc as [Htr Hls]; [congruence|].
      rewrite Htr, Hls, Htr1, Hls1. auto.
    + intros Hblk. destruct (Hbl1 Hblk) as [Hls1 Htr1].
      destruct Hbl as [Hls Htr]; [congruence|].
      rewrite Htr, Hls, Htr1, Hls1, <- app_assoc. auto.
Qed.

(** X3. After [Storage.clearAll()] each of the three keys of the
    application reads [null], so a following [processOrder] fails for want
    of a selection whatever the form; a key the application does not own
    keeps its entry.  On an accessible area nothing is logged; on a blocked
    one the area is unchanged and one error is logged per key. *)
Theorem clearAll_resets_the_application `{Host} (w : World)
  (formData : gmap jsstring jsstring) (readings : Readings) :
  let w' := snd (Storage.clearAll w) in
  (forall key, In key Storage.STORAGE_KEYS_values ->
               fst (Storage.getItem key w') = VNull) /\
  (forall key, ~ In key Storage.STORAGE_KEYS_values ->
               localStorage w' !! key = localStorage w !! key) /\
  fst (OrderManager.processOrder formData readings w')
  = OrderManager.no_selection no_selection_error /\
  (storage_blocked w = false -> trace w' = trace w) /\
  (storage_blocked w = true ->
   localStorage w' = localStorage w /\
   trace w'
   = trace w
     ++ replicate 3 (console_error (lit "Storage removeItem error:"))).
Proof.
  cbn zeta. unfold Storage.clearAll.
  destruct (forEach_removeItem Storage.STORAGE_KEYS_values w)
    as [Hb [Hacc Hbl]]. cbn zeta in Hb, Hacc, Hbl.
  set (w' := snd (forEach _ _ w)) in *.
  assert (Hnull : forall key, In key Storage.STORAGE_KEYS_values ->
                              fst (Storage.getItem key w') = VNull).
  { intros key Hkey. rewrite getItem_fst, Hb.
    destruct (storage_blocked w) eqn:Hblk; [reflexivity|].
    destruct (Hacc eq_refl) as [_ Hls]. rewrite Hls.
    unfold Storage.STORAGE_KEYS_values in *. cbn [foldl].
    destruct Hkey as [<-|[<-|[<-|[]]]].
    - rewrite !lookup_delete_ne by discriminate.
      rewrite lookup_delete_eq. reflexivity.
    - rewrite lookup_delete_ne by discriminate.
      rewrite lookup_delete_eq. reflexivity.
    - rewrite lookup_delete_eq. reflexivity. }
  split; [exact Hnull|]. split; [|split; [|split]].
  - intros key Hkey. destruct (storage_blocked w) eqn:Hblk.
    + destruct (Hbl eq_refl) as [-> _]. reflexivity.
    + destruct (Hacc eq_refl) as [_ ->].
      unfold Storage.STORAGE_KEYS_values in *. cbn [foldl].
      rewrite !lookup_delete_ne; [reflexivity|..]; intros <-; apply Hkey;
        cbn; auto.
  - rewrite processOrder_unfold.
    pose proof (Hnull CONFIG.STORAGE_KEYS.SELECTED_PRODUCT
                  (or_introl eq_refl)) as Hsel.
    unfold SelectionManager.getSelectedProduct.
    destruct (Storage.getItem CONFIG.STORAGE_KEYS.SELECTED_PRODUCT w')
      as [sel w0]. cbn [fst] in Hsel. rewrite Hsel. reflexivity.
  - intros Hblk. apply (Hacc Hblk).
  - intros Hblk. destruct (Hbl Hblk) as [Hls Htr]. split; [exact Hls|].
    rewrite Htr. reflexivity.
Qed.

(* ===================================================================== *)
(** ** Trimming                                                          *)
(* ===================================================================== *)

Lemma trimStart_blank (pad s : jsstring) :
  blank_string pad -> trimStart (pad ++ s) = trimStart s.
Proof.
  induction 1 as [|c pad Hc _ IH]; [reflexivity|].
  cbn [app trimStart]. rewrite Hc. exact IH.
Qed.

Lemma trimStart_split (s : jsstring) :
  exists pad, s = pad ++ trimStart s /\ blank_string pad.
Proof.
  induction s as [|c s [pad [Hs Hpad]]].
  - exists []. split; [reflexivity|constructor].
  - cbn [trimStart]. destruct (is_whitespace c) eqn:Hc.
    + exists (c :: pad). split; [cbn; congruence|constructor; assumption].
    + exists []. split; [reflexivity|constructor].
Qed.

(** What [trimStart] returns does not begin with whitespace. *)
Lemma trimStart_head (s : jsstring) (c : N) :
  head (trimStart s) = Some c -> is_whitespace c = false.
Proof.
  induction s as [|d s IH]; [discriminate|].
  cbn [trimStart]. destruct (is_whitespace d) eqn:Hd; [exact IH|].
  intros [= <-]. exact Hd.
Qed.

Lemma trimStart_id (s : jsstring) :
  (forall c, head s = Some c -> is_whitespace c = false) -> trimStart s = s.
Proof.
  destruct s as [|c s]; [reflexivity|]. intros Hc. cbn [trimStart].
  rewrite (Hc c eq_refl). reflexivity.
Qed.

Lemma trimStart_app (s t : jsstring) :
  trimStart (s ++ t)
  = match trimStart s with
    | [] => trimStart t
    | c :: r => (c :: r) ++ t
    end.
Proof.
  induction s as [|c s IH]; [reflexivity|].
  cbn [app trimStart]. destruct (is_whitespace c); [exact IH|reflexivity].
Qed.

Lemma blank_string_rev (s : jsstring) : blank_string s -> blank_string (rev s).
Proof. unfold blank_string. rewrite !List.Forall_forall. intros Hs c Hc.
  apply Hs, in_rev, Hc. Qed.

Lemma trimEnd_blank (s pad : jsstring) :
  blank_string pad -> trimEnd (s ++ pad) = trimEnd s.
Proof.
  intros Hpad. unfold trimEnd. rewrite rev_app_distr.
  rewrite trimStart_blank by (apply blank_string_rev, Hpad). reflexivity.
Qed.

Lemma trimEnd_split (s : jsstring) :
  exists pad, s = trimEnd s ++ pad /\ blank_string pad.
Proof.
  unfold trimEnd. destruct (trimStart_split (rev s)) as [pad [Hs Hpad]].
  exists (rev pad). split; [|apply blank_string_rev, Hpad].
  rewrite <- rev_app_distr, <- Hs, rev_involutive. reflexivity.
Qed.

Lemma trimStart_all_blank (s : jsstring) :
  blank_string s -> trimStart s = [].
Proof.
  intros Hs. rewrite <- (app_nil_r s). rewrite trimStart_blank by exact Hs.
  reflexivity.
Qed.

(** Whitespace around a string does not change its trimmed form. *)
Lemma trim_padded (pad s pad' : jsstring) :
  blank_string pad -> blank_string pad' ->
  trim (pad ++ s ++ pad') = trim s.
Proof.
  intros Hpad Hpad'. unfold trim. rewrite trimStart_blank by exact Hpad.
  rewrite trimStart_app. destruct (trimStart s) as [|c r] eqn:Hs.
  - rewrite trimStart_all_blank by exact Hpad'. reflexivity.
  - apply trimEnd_blank, Hpad'.
Qed.

(** Every string is its trimmed form between two runs of whitespace. *)
Lemma trim_split (s : jsstring) :
  exists pad pad', s = pad ++ trim s ++ pad' /\
                   blank_string pad /\ blank_string pad'.
Proof.
  destruct (trimStart_split s) as [pad [Hs Hpad]].
  destruct (trimEnd_split (trimStart s)) as [pad' [Hs' Hpad']].
  exists pad, pad'. unfold trim. rewrite <- Hs'. auto.
Qed.

Lemma trim_blank (s : jsstring) : blank_string s -> trim s = [].
Proof.
  intros Hs. unfold trim. rewrite trimStart_all_blank by exact Hs.
  reflexivity.
Qed.

(** A string without whitespace is its own trimmed form. *)
Lemma trim_id (s : jsstring) :
  Forall (fun c => is_whitespace c = false) s -> trim s = s.
Proof.
  intros Hs. unfold trim, trimEnd.
  assert (Hid : forall t, Forall (fun c => is_whitespace c = false) t ->
                          trimStart t = t).
  { intros t Ht. apply trimStart_id. intros c Hc.
    destruct t as [|d t]; [discriminate|]. injection Hc as <-.
    apply (Forall_inv Ht). }
  rewrite (Hid s Hs). rewrite Hid; [apply rev_involutive|].
  apply List.Forall_forall. intros c Hc. apply in_rev in Hc.
  revert c Hc. apply List.Forall_forall, Hs.
Qed.

Lemma digit_not_whitespace (c : N) :
  (48 <= c <= 57)%N -> is_whitespace c = false.
Proof.
  intros Hc. unfold is_whitespace.
  repeat match goal with
         | |- context [(?a <=? ?b)%N] => destruct (N.leb_spec a b)
         | |- context [(?a =? ?b)%N] => destruct (N.eqb_spec a b)
         end; cbn; try reflexivity; lia.
Qed.

(* ===================================================================== *)
(** ** Validators and surrounding whitespace                             *)
(* ===================================================================== *)

Lemma PIN_REGEX_test_spec (s : jsstring) :
  RegExp_test CONFIG.VALIDATION.PIN_REGEX s = true <-> six_digits s.
Proof.
  unfold RegExp_test, CONFIG.VALIDATION.PIN_REGEX, six_digits.
  rewrite match_last_piece, andb_true_iff, Nat.eqb_eq.
  cbn [in_class]. rewrite <- forallb_is_digit. reflexivity.
Qed.

Lemma six_digits_trim (d : jsstring) : six_digits d -> trim d = d.
Proof.
  intros [_ Hd]. apply trim_id.
  eapply List.Forall_impl; [|exact Hd]. exact digit_not_whitespace.
Qed.

Lemma trimStart_not_blank (a rest : jsstring) :
  ~ blank_string a -> trimStart (a ++ rest) = trimStart a ++ rest.
Proof.
  intros Ha. rewrite trimStart_app. destruct (trimStart a) eqn:E;
    [|reflexivity].
  exfalso. apply Ha. destruct (trimStart_split a) as [pad [Hsplit Hpad]].
  rewrite E, app_nil_r in Hsplit. subst a. exact Hpad.
Qed.

(** Trimming keeps whatever stands between two non-blank parts. *)
Lemma trim_keeps_inner (a b : jsstring) (c : N) :
  ~ blank_string a -> ~ blank_string b -> In c (trim (a ++ c :: b)).
Proof.
  intros Ha Hb. unfold trim, trimEnd.
  rewrite trimStart_not_blank by exact Ha.
  rewrite rev_app_distr. cbn [rev]. rewrite <- app_assoc. cbn [app].
  rewrite trimStart_not_blank.
  - apply in_rev. rewrite rev_involutive. apply in_elt.
  - intros Hrb. apply Hb. rewrite <- (rev_involutive b).
    apply blank_string_rev, Hrb.
Qed.

(** X4. [validatePIN] accepts an input exactly when it is six decimal
    digits with nothing but whitespace before and after them; whitespace
    between the digits (which the phone validator would drop) makes the
    PIN invalid.  The message is empty exactly for a valid PIN, and a
    missing PIN is invalid. *)
Theorem validatePIN_accepts_six_digits (input : jsstring) :
  let r := Validator.validatePIN (Some input) in
  (Validator.isValid r = true <->
   exists pad d pad',
     input = pad ++ d ++ pad' /\ blank_string pad /\ blank_string pad' /\
     six_digits d) /\
  (Validator.isValid r = true <-> Validator.message r = []) /\
  (forall a c b,
     input = a ++ c :: b -> is_whitespace c = true ->
     ~ blank_string a -> ~ blank_string b ->
     Validator.isValid r = false) /\
  Validator.isValid (Validator.validatePIN None) = false.
Proof.
  cbn zeta. unfold Validator.validatePIN.
  cbn [Validator.isValid Validator.message or_empty].
  assert (Hiff : RegExp_test CONFIG.VALIDATION.PIN_REGEX (trim input) = true
                 <-> exists pad d pad',
                     input = pad ++ d ++ pad' /\ blank_string pad /\
                     blank_string pad' /\ six_digits d).
  { rewrite PIN_REGEX_test_spec. split.
    - intros Hd. destruct (trim_split input) as [pad [pad' [Hin [Hp Hp']]]].
      exists pad, (trim input), pad'. auto.
    - intros [pad [d [pad' [-> [Hp [Hp' Hd]]]]]].
      rewrite trim_padded by assumption.
      rewrite six_digits_trim by exact Hd. exact Hd. }
  split; [exact Hiff|]. split; [|split; [|reflexivity]].
  - destruct (RegExp_test CONFIG.VALIDATION.PIN_REGEX (trim input));
      split; intros E; first [reflexivity | discriminate E].
  - intros a c b -> Hc Ha Hb.
    apply not_true_iff_false. intros Hv.
    apply PIN_REGEX_test_spec in Hv as [_ Hd].
    pose proof (trim_keeps_inner a b c Ha Hb) as Hin.
    apply (proj1 (List.Forall_forall _ _) Hd) in Hin.
    apply digit_not_whitespace in Hin. congruence.
Qed.

(** X5. Whitespace before and after an input never changes what the four
    validators answer: a padded name, phone number, address or PIN gets
    the same result as the bare one.  An input of whitespace only, like a
    missing one, is invalid for all four. *)
Theorem validators_ignore_surrounding_whitespace (pad s pad' : jsstring) :
  blank_string pad -> blank_string pad' ->
  let padded := Some (pad ++ s ++ pad') in
  Validator.validateName padded = Validator.validateName (Some s) /\
  Validator.validatePhone padded = Validator.validatePhone (Some s) /\
  Validator.validateAddress padded = Validator.validateAddress (Some s) /\
  Validator.validatePIN padded = Validator.validatePIN (Some s) /\
  Validator.isValid (Validator.validateName (Some pad)) = false /\
  Validator.phone_isValid (Validator.validatePhone (Some pad)) = false /\
  Validator.isValid (Validator.validateAddress (Some pad)) = false /\
  Validator.isValid (Validator.validatePIN (Some pad)) = false /\
  Validator.validateName (Some pad) = Validator.validateName None /\
  Validator.validateAddress (Some pad) = Validator.validateAddress None /\
  Validator.validatePIN (Some pad) = Validator.validatePIN None.
Proof.
  intros Hpad Hpad'. cbn zeta.
  unfold Validator.validateName, Validator.validatePhone,
    Validator.validateAddress, Validator.validatePIN.
  cbn [or_empty Validator.isValid Validator.phone_isValid].
  rewrite !(trim_padded pad s pad' Hpad Hpad'), !(trim_blank pad Hpad).
  repeat split; reflexivity.
Qed.

Lemma validators_ignore_surrounding_whitespace_witness :
  blank_string (lit "  ") /\ blank_string [9%N; 160%N] /\
  Validator.validatePIN (Some (lit "  " ++ lit "560038" ++ [9%N; 160%N]))
  = Validator.validatePIN (Some (lit "560038")).
Proof.
  assert (H1 : blank_string (lit "  ")) by (repeat constructor).
  assert (H2 : blank_string [9%N; 160%N]) by (repeat constructor).
  split; [exact H1|]. split; [exact H2|].
  exact (proj1 (proj2 (proj2 (proj2
    (validators_ignore_surrounding_whitespace (lit "  ") (lit "560038")
       [9%N; 160%N] H1 H2))))).
Defined.

(* ===================================================================== *)
(** ** Catalog: categories and search                                    *)
(* ===================================================================== *)

Lemma filter_sublist_of {A : Type} (f : A -> bool) (l : list A) :
  sublist (List.filter f l) l.
Proof.
  induction l as [|x l IH]; cbn [List.filter]; [constructor|].
  destruct (f x); [apply sublist_skip|apply sublist_cons]; exact IH.
Qed.

Lemma catalog_find_by_id (p : Product.t) :
  In p PRODUCT_CATALOG.products ->
  ProductManager.getProductById (Product.id p) = Some p.
Proof. apply (find_by_id_present _ p catalog_ids_distinct). Qed.

(** X6. [getProductsByCategory(c)] returns exactly the catalog products
    whose category is [c] (the comparison is exact, so a category that no
    product carries gives the empty list), in catalog order and without
    repetition; each of them is the product [getProductById] finds under
    its id. *)
Theorem getProductsByCategory_exact (category : jsstring) :
  let found := ProductManager.getProductsByCategory category in
  (forall p, In p found <->
             In p PRODUCT_CATALOG.products /\ Product.category p = category) /\
  sublist found PRODUCT_CATALOG.products /\
  NoDup found /\
  (forall p, In p found ->
             ProductManager.getProductById (Product.id p) = Some p) /\
  ((forall p, In p PRODUCT_CATALOG.products -> Product.category p <> category)
   -> found = []).
Proof.
  cbn zeta. unfold ProductManager.getProductsByCategory.
  assert (Hin : forall p,
    In p (List.filter
            (fun product => bool_decide (Product.category product = category))
            PRODUCT_CATALOG.products)
    <-> In p PRODUCT_CATALOG.products /\ Product.category p = category).
  { intros p. rewrite filter_In, bool_decide_eq_true. reflexivity. }
  split; [exact Hin|]. split; [apply filter_sublist_of|].
  split; [|split].
  - eapply sublist_NoDup; [|apply filter_sublist_of].
    apply (NoDup_fmap_1 Product.id), catalog_ids_distinct.
  - intros p Hp. apply catalog_find_by_id, Hin, Hp.
  - intros Hnone.
    destruct (List.filter _ PRODUCT_CATALOG.products) as [|p l] eqn:E;
      [reflexivity|].
    exfalso. destruct (proj1 (Hin p)) as [Hp Hc];
      [left; reflexivity|].
    exact (Hnone p Hp Hc).
Qed.

Lemma ascii_lower_toUpperCase (s : jsstring) :
  ascii_lower (toUpperCase s) = ascii_lower s.
Proof.
  unfold ascii_lower, toUpperCase. rewrite map_map. apply map_ext.
  intros c.
  destruct (N.leb_spec 97 c), (N.leb_spec c 122); cbn [andb];
    repeat match goal with
           | |- context [(?a <=? ?b)%N] => destruct (N.leb_spec a b)
           end; cbn [andb]; lia.
Qed.

Lemma ascii_string_toUpperCase (s : jsstring) :
  ascii_string s -> ascii_string (toUpperCase s).
Proof.
  unfold ascii_string, toUpperCase. intros Hs. apply List.Forall_map.
  eapply List.Forall_impl; [|exact Hs]. cbn beta. intros c Hc.
  destruct ((97 <=? c) && (c <=? 122))%N; lia.
Qed.

Lemma includes_empty (s : jsstring) : includes s [] = true.
Proof. destruct s; reflexivity. Qed.

Lemma filter_all {A : Type} (f : A -> bool) (l : list A) :
  (forall x, f x = true) -> List.filter f l = l.
Proof.
  intros Hf. induction l as [|x l IH]; [reflexivity|].
  cbn [List.filter]. rewrite Hf, IH. reflexivity.
Qed.

(** X7. For a query of ASCII characters, [searchProducts] does not
    depend on the case of the query's letters: the upper-cased query finds
    the same products.  A query that is empty or whitespace only finds the
    whole catalog, and whatever is found is a part of the catalog in
    catalog order. *)
Theorem searchProducts_ignores_case `{Casing} (query : jsstring) :
  ascii_string query ->
  ProductManager.searchProducts (toUpperCase query)
  = ProductManager.searchProducts query /\
  (blank_string query ->
   ProductManager.searchProducts query = PRODUCT_CATALOG.products) /\
  sublist (ProductManager.searchProducts query) PRODUCT_CATALOG.products.
Proof.
  intros Hq. unfold ProductManager.searchProducts.
  rewrite (String_toLowerCase_ascii query Hq).
  rewrite (String_toLowerCase_ascii (toUpperCase query)
             (ascii_string_toUpperCase query Hq)).
  rewrite ascii_lower_toUpperCase.
  split; [reflexivity|]. split; [|apply filter_sublist_of].
  intros Hblank.
  assert (Hterm : trim (ascii_lower query) = []).
  { apply trim_blank. unfold blank_string, ascii_lower in *.
    apply List.Forall_map. eapply List.Forall_impl; [|exact Hblank].
    cbn beta. intros c Hc.
    destruct ((65 <=? c) && (c <=? 90))%N eqn:Hup; [|exact Hc].
    exfalso. apply andb_true_iff in Hup as [H1%N.leb_le H2%N.leb_le].
    assert (Hd : is_whitespace c = false).
    { unfold is_whitespace.
      repeat match goal with
             | |- context [(?a <=? ?b)%N] => destruct (N.leb_spec a b)
             | |- context [(?a =? ?b)%N] => destruct (N.eqb_spec a b)
             end; cbn; try reflexivity; lia. }
    congruence. }
  rewrite Hterm. apply filter_all. intros p.
  rewrite includes_empty. reflexivity.
Qed.

Lemma searchProducts_ignores_case_witness :
  ascii_string (lit "Rum") /\
  @ProductManager.searchProducts ascii_casing (toUpperCase (lit "Rum"))
  = @ProductManager.searchProducts ascii_casing (lit "Rum").
Proof.
  assert (Hq : ascii_string (lit "Rum"))
    by (repeat constructor).
  split; [exact Hq|].
  exact (proj1 (@searchProducts_ignores_case ascii_casing (lit "Rum") Hq)).
Defined.

(* ===================================================================== *)
(** ** Selection: what it changes and what it announces                  *)
(* ===================================================================== *)

(** X8. [selectProduct(id)] succeeds only for a catalog product on an
    accessible storage area; it then binds the selection key to the
    product and calls the presentation twice, first
    [updateSelectedSummary] and then the success notification.  When it
    fails (unknown id, blocked storage or exhausted quota) the storage
    area is unchanged, so the previous selection still reads as before,
    and the only trace is one console message; no presentation callback
    runs.  In both cases no other key is touched. *)
Theorem selectProduct_effects `{Host} (productId : jsstring) (w : World) :
  let out := SelectionManager.selectProduct productId w in
  (fst out = true ->
   exists p,
     ProductManager.getProductById productId = Some p /\
     storage_blocked w = false /\
     localStorage (snd out)
     = <[CONFIG.STORAGE_KEYS.SELECTED_PRODUCT := Text (as_value p)]>
         (localStorage w) /\
     trace (snd out)
     = trace w ++ [updateSelectedSummary_called;
                   showNotification_called
                     (lit "Product selected successfully") (lit "success")]) /\
  (fst out = false ->
   localStorage (snd out) = localStorage w /\
   fst (SelectionManager.getSelectedProduct (snd out))
   = fst (SelectionManager.getSelectedProduct w) /\
   (trace (snd out) = trace w ++ [console_warn (lit "Product not found:")] \/
    trace (snd out)
    = trace w ++ [console_error (lit "Storage setItem error:")])) /\
  (forall key, key <> CONFIG.STORAGE_KEYS.SELECTED_PRODUCT ->
               localStorage (snd out) !! key = localStorage w !! key) /\
  storage_blocked (snd out) = storage_blocked w.
Proof.
  cbn zeta. unfold SelectionManager.selectProduct,
    SelectionManager.getSelectedProduct.
  destruct (ProductManager.getProductById productId) as [p|] eqn:Hp.
  - run_M. unfold Storage.setItem. rewrite JSON_text_Product.
    destruct (storage_blocked w) eqn:Hblk; cbn [orb].
    + cbn [fst snd emit localStorage storage_blocked trace].
      rewrite !getItem_fst.
      cbn [fst snd emit localStorage storage_blocked trace].
      rewrite Hblk. split; [discriminate|]. auto.
    + destruct (quota_allows _ _ _) eqn:Hq;
        cbn [negb fst snd emit localStorage storage_blocked trace
             UIManager.updateSelectedSummary UIManager.showNotification].
      * split; [intros _; exists p; rewrite <- app_assoc; auto|].
        split; [discriminate|]. split; [|reflexivity].
        intros key Hkey. apply lookup_insert_ne. congruence.
      * rewrite !getItem_fst.
        cbn [fst snd emit localStorage storage_blocked trace].
        split; [discriminate|]. auto.
  - run_M. cbn [fst snd emit localStorage storage_blocked trace].
    rewrite !getItem_fst.
    cbn [fst snd emit localStorage storage_blocked trace].
    split; [discriminate|]. auto.
Qed.

(** X9. [clearSelection()] succeeds exactly when the storage area is
    accessible; it then removes the selection key and calls
    [updateSelectedSummary] once.  When it fails nothing is removed, no
    callback runs and one error is logged.  Every other key, the stored
    booking included, reads afterwards as it did before. *)
Theorem clearSelection_effects (w : World) :
  let out := SelectionManager.clearSelection w in
  (fst out = true <-> storage_blocked w = false) /\
  (fst out = true ->
   localStorage (snd out)
   = delete CONFIG.STORAGE_KEYS.SELECTED_PRODUCT (localStorage w) /\
   trace (snd out) = trace w ++ [updateSelectedSummary_called]) /\
  (fst out = false ->
   localStorage (snd out) = localStorage w /\
   trace (snd out)
   = trace w ++ [console_error (lit "Storage removeItem error:")]) /\
  (forall key, key <> CONFIG.STORAGE_KEYS.SELECTED_PRODUCT ->
               fst (Storage.getItem key (snd out))
               = fst (Storage.getItem key w)) /\
  fst (Storage.getItem CONFIG.STORAGE_KEYS.BOOKING_DATA (snd out))
  = fst (Storage.getItem CONFIG.STORAGE_KEYS.BOOKING_DATA w).
Proof.
  cbn zeta. unfold SelectionManager.clearSelection. run_M.
  unfold Storage.removeItem.
  assert (Hframe : forall w' : World,
    storage_blocked w' = storage_blocked w ->
    (localStorage w' = localStorage w \/
     localStorage w'
     = delete CONFIG.STORAGE_KEYS.SELECTED_PRODUCT (localStorage w)) ->
    forall key, key <> CONFIG.STORAGE_KEYS.SELECTED_PRODUCT ->
                fst (Storage.getItem key w') = fst (Storage.getItem key w)).
  { intros w' Hb Hls key Hkey. rewrite !getItem_fst, Hb.
    destruct Hls as [->| ->]; [reflexivity|].
    rewrite lookup_delete_ne by congruence. reflexivity. }
  destruct (storage_blocked w) eqn:Hblk;
    cbn [fst snd emit localStorage storage_blocked trace
         UIManager.updateSelectedSummary].
  - split; [split; discriminate|]. split; [discriminate|].
    split; [auto|]. split.
    + apply Hframe; cbn; auto.
    + apply Hframe; cbn; [auto|auto|discriminate].
  - split; [tauto|]. split; [auto|]. split; [discriminate|]. split.
    + apply Hframe; cbn; auto.
    + apply Hframe; cbn; [auto|auto|discriminate].
Qed.

(* ===================================================================== *)
(** ** Order identifiers                                                 *)
(* ===================================================================== *)

Lemma radix36_char_spec (d : Z) :
  0 <= d < 36 ->
  base36_lower (radix36_char d) /\ radix36_value (radix36_char d) = d.
Proof.
  intros Hd. unfold radix36_char, radix36_value, base36_lower.
  destruct (Z.ltb_spec d 10).
  - rewrite (proj2 (N.leb_le _ _)) by lia. split; lia.
  - rewrite (proj2 (N.leb_gt _ _)) by lia.
    rewrite (proj2 (N.leb_gt _ _)) by lia. split; lia.
Qed.

Lemma radix36_decode_snoc (ds : jsstring) (c : N) :
  radix36_decode (ds ++ [c]) = 36 * radix36_decode ds + radix36_value c.
Proof. unfold radix36_decode. rewrite foldl_app. reflexivity. Qed.

(** With fuel for every bit of [n], the digit loop writes all of [n]. *)
Lemma radix36_digits_spec (fuel : nat) (n : Z) (acc : jsstring) :
  0 <= n < 2 ^ Z.of_nat fuel ->
  exists ds,
    radix36_digits fuel n acc = ds ++ acc /\
    Forall base36_lower ds /\
    radix36_decode ds = n /\
    (fuel <> 0%nat -> ds <> []).
Proof.
  revert n acc. induction fuel as [|fuel IH]; intros n acc Hn.
  - exists []. cbn in *. repeat split; [constructor|lia|congruence].
  - cbn [radix36_digits].
    assert (Hd : 0 <= n mod 36 < 36) by (apply Z.mod_pos_bound; lia).
    destruct (radix36_char_spec _ Hd) as [Hc Hv].
    destruct (Z.eqb_spec (n / 36) 0) as [Hq|Hq].
    + exists [radix36_char (n mod 36)].
      split; [reflexivity|]. split; [constructor; [exact Hc|constructor]|].
      split; [|discriminate].
      unfold radix36_decode. cbn [foldl]. rewrite Hv.
      pose proof (Z.div_mod n 36). lia.
    + assert (Hn' : 0 <= n / 36 < 2 ^ Z.of_nat fuel).
      { split; [apply Z.div_pos; lia|].
        apply Z.div_lt_upper_bound; [lia|].
        rewrite Nat2Z.inj_succ, Z.pow_succ_r in Hn by lia. lia. }
      destruct (IH (n / 36) (radix36_char (n mod 36) :: acc) Hn')
        as [ds [Hds [Hall [Hdec _]]]].
      exists (ds ++ [radix36_char (n mod 36)]).
      split; [rewrite Hds, <- app_assoc; reflexivity|].
      split; [apply Forall_app; split;
               [exact Hall|constructor; [exact Hc|constructor]]|].
      split; [|intros _ E; apply app_eq_nil in E as [_ E]; discriminate E].
      rewrite radix36_decode_snoc, Hdec, Hv.
      pose proof (Z.div_mod n 36). lia.
Qed.

(** [n.toString(36)] of a non-negative integer is a non-empty base-36
    numeral that reads back as [n]. *)
Lemma integer_toString36_spec (n : Z) :
  0 <= n ->
  Forall base36_lower (integer_toString36 n) /\
  radix36_decode (integer_toString36 n) = n /\
  integer_toString36 n <> [].
Proof.
  intros Hn. unfold integer_toString36.
  rewrite (proj2 (Z.ltb_ge _ _)) by exact Hn.
  assert (Hfuel : 0 <= n < 2 ^ Z.of_nat (S (Z.to_nat (Z.log2 n)))).
  { rewrite Nat2Z.inj_succ, Z2Nat.id by apply Z.log2_nonneg.
    destruct (Z.eq_dec n 0) as [->|Hne]; [cbn; lia|].
    pose proof (Z.log2_spec n). lia. }
  destruct (radix36_digits_spec _ n [] Hfuel) as [ds [Hds [Hall [Hdec Hne]]]].
  rewrite Hds, app_nil_r. auto.
Qed.

Lemma toUpperCase_base36 (s : jsstring) :
  Forall base36_lower s ->
  Forall base36_upper (toUpperCase s) /\
  radix36_decode (toUpperCase s) = radix36_decode s.
Proof.
  induction s as [|c s IH] using rev_ind; intros Hs.
  - split; [constructor|reflexivity].
  - apply Forall_app in Hs as [Hs Hc]. apply Forall_inv in Hc.
    destruct (IH Hs) as [Hup Hdec].
    unfold toUpperCase in *. rewrite map_app. cbn [map].
    assert (Hcu : base36_upper
                    (if ((97 <=? c) && (c <=? 122))%N then (c - 32)%N else c)
                  /\ radix36_value
                       (if ((97 <=? c) && (c <=? 122))%N then (c - 32)%N
                        else c) = radix36_value c).
    { unfold base36_upper, base36_lower, radix36_value in *.
      destruct (N.leb_spec 97 c), (N.leb_spec c 122); cbn [andb];
        repeat match goal with
               | |- context [(?a <=? ?b)%N] => destruct (N.leb_spec a b)
               end; lia. }
    destruct Hcu as [Hcu Hcv]. split.
    + apply Forall_app. split; [exact Hup|constructor; [exact Hcu|constructor]].
    + rewrite !radix36_decode_snoc, Hdec, Hcv. reflexivity.
Qed.

(** Cutting at the first hyphen is unambiguous. *)
Lemma split_at_hyphen (a a' b b' : jsstring) :
  ~ In 45%N a -> ~ In 45%N a' ->
  a ++ 45%N :: b = a' ++ 45%N :: b' -> a = a'.
Proof.
  revert a'. induction a as [|x a IH]; intros [|y a'] Ha Ha' E;
    cbn [app] in E.
  - reflexivity.
  - injection E as <- _. exfalso. apply Ha'. left. reflexivity.
  - injection E as -> _. exfalso. apply Ha. left. reflexivity.
  - injection E as -> E. f_equal. apply IH; [| |exact E].
    + intros Hin. apply Ha. right. exact Hin.
    + intros Hin. apply Ha'. right. exact Hin.
Qed.

Lemma base36_upper_no_hyphen (s : jsstring) :
  Forall base36_upper s -> ~ In 45%N s.
Proof.
  intros Hs Hin. apply (proj1 (List.Forall_forall _ _) Hs) in Hin.
  unfold base36_upper in Hin. lia.
Qed.

(** The parts of an order identifier. *)
Lemma generateOrderId_parts `{Host} (now : Z) (random : Q) :
  OrderManager.generateOrderId now random
  = lit "LLX-" ++ toUpperCase (integer_toString36 now) ++ 45%N
    :: toUpperCase (substr (fraction_toString36 random) 2 4).
Proof.
  unfold OrderManager.generateOrderId, toUpperCase.
  rewrite !map_app. reflexivity.
Qed.

(** X10. For a non-negative clock reading, the order identifier is
    "LLX-", then the reading written in base 36 with upper-case letters,
    then a hyphen, then at most four characters taken from the random
    draw; the reading can be read back from its numeral.  No identifier
    contains a lower-case ASCII letter. *)
Theorem generateOrderId_shape `{Host} (now : Z) (random : Q) :
  0 <= now ->
  exists stamp suffix,
    OrderManager.generateOrderId now random
    = lit "LLX-" ++ stamp ++ lit "-" ++ suffix /\
    stamp <> [] /\
    Forall base36_upper stamp /\
    radix36_decode stamp = now /\
    (length suffix <= 4)%nat /\
    Forall (fun c => ~ (97 <= c <= 122)%N)
           (OrderManager.generateOrderId now random).
Proof.
  intros Hnow.
  destruct (integer_toString36_spec now Hnow) as [Hlow [Hdec Hne]].
  destruct (toUpperCase_base36 _ Hlow) as [Hup Hdec'].
  exists (toUpperCase (integer_toString36 now)),
    (toUpperCase (substr (fraction_toString36 random) 2 4)).
  split; [apply generateOrderId_parts|].
  split; [intros E; apply Hne; unfold toUpperCase in E;
          apply map_eq_nil in E; exact E|].
  split; [exact Hup|]. split; [congruence|]. split.
  - unfold toUpperCase, substr. rewrite length_map, length_take. lia.
  - unfold OrderManager.generateOrderId, toUpperCase.
    apply List.Forall_map, List.Forall_forall. intros c _.
    destruct (N.leb_spec 97 c), (N.leb_spec c 122); cbn [andb]; lia.
Qed.

Lemma generateOrderId_shape_witness :
  0 <= 1700000000000 /\
  exists stamp suffix,
    @OrderManager.generateOrderId roomy_host 1700000000000 (3 # 10)
    = lit "LLX-" ++ stamp ++ lit "-" ++ suffix /\
    radix36_decode stamp = 1700000000000.
Proof.
  assert (Hnow : 0 <= 1700000000000) by lia.
  split; [exact Hnow|].
  destruct (@generateOrderId_shape roomy_host 1700000000000 (3 # 10) Hnow)
    as [stamp [suffix [Hid [_ [_ [Hdec _]]]]]].
  exists stamp, suffix. split; [exact Hid|exact Hdec].
Defined.

(** X11. Two order identifiers generated at different non-negative clock
    readings are different, whatever the random draws. *)
Theorem generateOrderId_distinct_readings `{Host} (now1 now2 : Z)
  (random1 random2 : Q) :
  0 <= now1 -> 0 <= now2 -> now1 <> now2 ->
  OrderManager.generateOrderId now1 random1
  <> OrderManager.generateOrderId now2 random2.
Proof.
  intros H1 H2 Hne E. apply Hne.
  rewrite !generateOrderId_parts in E. apply app_inv_head in E.
  destruct (integer_toString36_spec now1 H1) as [Hlow1 [Hdec1 _]].
  destruct (integer_toString36_spec now2 H2) as [Hlow2 [Hdec2 _]].
  destruct (toUpperCase_base36 _ Hlow1) as [Hup1 Hd1].
  destruct (toUpperCase_base36 _ Hlow2) as [Hup2 Hd2].
  apply split_at_hyphen in E;
    [|apply base36_upper_no_hyphen; assumption..].
  rewrite <- Hdec1, <- Hdec2, <- Hd1, <- Hd2, E. reflexivity.
Qed.

Lemma generateOrderId_distinct_readings_witness :
  0 <= 1700000000000 /\ 0 <= 1700000000001 /\
  1700000000000 <> 1700000000001 /\
  @OrderManager.generateOrderId roomy_host 1700000000000 (3 # 10)
  <> @OrderManager.generateOrderId roomy_host 1700000000001 (3 # 10).
Proof.
  assert (H1 : 0 <= 1700000000000) by lia.
  assert (H2 : 0 <= 1700000000001) by lia.
  assert (H3 : 1700000000000 <> 1700000000001) by lia.
  split; [exact H1|]. split; [exact H2|]. split; [exact H3|].
  exact (@generateOrderId_distinct_readings roomy_host _ _ (3 # 10) (3 # 10)
           H1 H2 H3).
Defined.

(* ===================================================================== *)
(** ** Delivery estimate: the label and the weekend day                  *)
(* ===================================================================== *)

Lemma generateETA_days `{Host} (today : Z) (random : Q) :
  (0 <= random)%Q -> (random < 1)%Q ->
  exists draw,
    0 <= draw <= 3 /\
    ETA.daysFromNow (OrderManager.generateETA today random)
    = draw + 2 + (if (Date_getDay today =? 0) || (Date_getDay today =? 6)
                  then 1 else 0) /\
    draw = Qfloor (random * inject_Z 4).
Proof.
  intros H0 H1. exists (Qfloor (random * inject_Z 4)).
  split; [apply floor_of_draw; assumption|]. split; [|reflexivity].
  unfold OrderManager.generateETA. cbn [ETA.daysFromNow].
  unfold CONFIG.DELIVERY.MIN_DAYS, CONFIG.DELIVERY.MAX_DAYS,
    CONFIG.DELIVERY.WEEKEND_DELAY.
  change (5 - 2 + 1) with 4.
  destruct ((Date_getDay today =? 0) || (Date_getDay today =? 6)); lia.
Qed.

(** X12. For a draw of [0, 1) the label of [generateETA] is never
    "Tomorrow": it is one of "2 days", ..., "6 days", and the delivery
    date lies between two and six whole days after the current time.  For
    the same draw, an estimate made on a Saturday or Sunday is exactly one
    day longer than one made on a weekday. *)
Theorem generateETA_never_tomorrow `{Host} (today today' : Z) (random : Q) :
  (0 <= random)%Q -> (random < 1)%Q ->
  let eta := OrderManager.generateETA today random in
  ETA.relative eta <> lit "Tomorrow" /\
  In (ETA.relative eta)
     [lit "2 days"; lit "3 days"; lit "4 days"; lit "5 days"; lit "6 days"] /\
  2 * 86400000 <= ETA.date eta - today <= 6 * 86400000 /\
  (1 <= Date_getDay today <= 5 ->
   Date_getDay today' = 0 \/ Date_getDay today' = 6 ->
   ETA.daysFromNow (OrderManager.generateETA today' random)
   = ETA.daysFromNow eta + 1).
Proof.
  intros H0 H1. cbn zeta.
  destruct (generateETA_days today random H0 H1)
    as [draw [Hdraw [Hdays Hfloor]]].
  destruct (generateETA_days today' random H0 H1)
    as [draw' [_ [Hdays' Hfloor']]].
  assert (Hlabel : ETA.relative (OrderManager.generateETA today random)
                   = OrderManager.relative_label
                       (ETA.daysFromNow (OrderManager.generateETA today random)))
    by reflexivity.
  assert (Hdate : ETA.date (OrderManager.generateETA today random)
                  = today
                    + ETA.daysFromNow (OrderManager.generateETA today random)
                      * 86400000)
    by (unfold OrderManager.generateETA; cbn [ETA.date ETA.daysFromNow]; lia).
  set (days := ETA.daysFromNow (OrderManager.generateETA today random)) in *.
  assert (Hrange : 2 <= days <= 6)
    by (destruct ((Date_getDay today =? 0) || (Date_getDay today =? 6)); lia).
  split; [|split; [|split]].
  - rewrite Hlabel, relative_label_Tomorrow. lia.
  - rewrite Hlabel.
    assert (Hcases : days = 2 \/ days = 3 \/ days = 4 \/ days = 5 \/ days = 6)
      by lia.
    destruct Hcases as [->|[->|[->|[->| ->]]]]; vm_compute; tauto.
  - rewrite Hdate. lia.
  - intros Hwd Hwe. rewrite Hdays', Hdays.
    assert (Hsame : draw' = draw) by congruence.
    assert (Hw : (Date_getDay today' =? 0) || (Date_getDay today' =? 6) = true)
      by (destruct Hwe as [-> | ->]; reflexivity).
    rewrite Hw.
    destruct (Z.eqb_spec (Date_getDay today) 0); [lia|].
    destruct (Z.eqb_spec (Date_getDay today) 6); [lia|].
    cbn [orb]. lia.
Qed.

Lemma generateETA_never_tomorrow_witness :
  (0 <= 7 # 10)%Q /\ (7 # 10 < 1)%Q /\
  ETA.relative (@OrderManager.generateETA roomy_host 1700049600000 (7 # 10))
  <> lit "Tomorrow".
Proof.
  assert (H0 : (0 <= 7 # 10)%Q) by (unfold Qle; cbn; lia).
  assert (H1 : (7 # 10 < 1)%Q) by (unfold Qlt; cbn; lia).
  split; [exact H0|]. split; [exact H1|].
  exact (proj1 (@generateETA_never_tomorrow roomy_host 1700049600000 0
                  (7 # 10) H0 H1)).
Defined.

(* ===================================================================== *)
(** ** Form validation: normal form and single failure                   *)
(* ===================================================================== *)

Lemma remove_whitespace_idem (s : jsstring) :
  remove_whitespace (remove_whitespace s) = remove_whitespace s.
Proof.
  unfold remove_whitespace. induction s as [|c s IH]; [reflexivity|].
  rewrite (filter_cons _ c).
  destruct (decide (is_whitespace c = false)) as [Hc|Hc]; [|exact IH].
  rewrite (filter_cons _ c).
  destruct (decide (is_whitespace c = false)); [|contradiction].
  rewrite IH. reflexivity.
Qed.

(** Normalizing a normalized phone number changes nothing. *)
Lemma validatePhone_value_idem (phone : option jsstring) :
  Validator.validatePhone (Some (Validator.value (Validator.validatePhone phone)))
  = Validator.validatePhone phone.
Proof.
  unfold Validator.validatePhone. cbn [Validator.value or_empty].
  rewrite (remove_whitespace_trim (remove_whitespace _)).
  rewrite remove_whitespace_idem. reflexivity.
Qed.

Lemma passes_validatedData (formData : gmap jsstring jsstring) (f : field) :
  passes (OrderManager.validatedData (OrderManager.validateOrderForm formData))
         f
  = passes formData f.
Proof.
  rewrite validatedData_unfold.
  destruct f; cbn [passes];
    try (rewrite !lookup_insert_ne by discriminate; reflexivity).
  rewrite lookup_insert_eq, validatePhone_value_idem. reflexivity.
Qed.

(** X13. The validated data is a normal form of the form data: running
    [validateOrderForm] on [validatedData] gives the same verdict, the
    same errors and the same [validatedData] again (the phone number is
    already without whitespace, every other field is as it was). *)
Theorem validateOrderForm_validatedData_is_stable
  (formData : gmap jsstring jsstring) :
  let v := OrderManager.validateOrderForm formData in
  let v' := OrderManager.validateOrderForm (OrderManager.validatedData v) in
  OrderManager.isValid v' = OrderManager.isValid v /\
  OrderManager.errors v' = OrderManager.errors v /\
  OrderManager.validatedData v' = OrderManager.validatedData v /\
  (forall c,
     OrderManager.validatedData v !! lit "phone" = Some c ->
     Forall (fun x => is_whitespace x = false) c).
Proof.
  cbn zeta.
  destruct (validateOrderForm_unfold formData) as [He Hv].
  destruct (validateOrderForm_unfold
              (OrderManager.validatedData
                 (OrderManager.validateOrderForm formData))) as [He' Hv'].
  split; [|split; [|split]].
  - rewrite Hv', Hv. unfold all_fields. cbn [forallb].
    rewrite !passes_validatedData. reflexivity.
  - rewrite He', He. unfold all_fields, report. cbn [foldl].
    rewrite !passes_validatedData. reflexivity.
  - rewrite (validatedData_unfold (OrderManager.validatedData _)).
    rewrite validatedData_unfold at 1 2.
    rewrite lookup_insert_eq, validatePhone_value_idem, insert_insert_eq.
    symmetry. apply validatedData_unfold.
  - intros c. rewrite validatedData_unfold, lookup_insert_eq.
    intros [= <-]. unfold Validator.validatePhone. cbn [Validator.value].
    apply List.Forall_forall. intros x Hx.
    apply list_elem_of_In, remove_whitespace_spec in Hx. tauto.
Qed.

(** X14. When exactly one of the seven checks fails, [errors] holds
    exactly one entry, the failing field with its message, and the form is
    invalid: a form that is wrong only in its PIN is reported with the
    [pin] key alone. *)
Theorem one_failing_field_one_entry (formData : gmap jsstring jsstring)
  (f : field) :
  passes formData f = false ->
  (forall g, g <> f -> passes formData g = true) ->
  OrderManager.errors (OrderManager.validateOrderForm formData)
  = {[ field_key f := message_of f ]} /\
  OrderManager.isValid (OrderManager.validateOrderForm formData) = false.
Proof.
  intros Hf Hothers. split.
  - apply map_eq. intros k.
    destruct (decide (k = field_key f)) as [->|Hk].
    + rewrite lookup_singleton_eq, errors_lookup, Hf. reflexivity.
    + rewrite lookup_singleton_ne by congruence.
      apply eq_None_not_Some. intros Hsome.
      destruct (errors_keys formData k Hsome) as [g ->].
      rewrite errors_lookup in Hsome.
      destruct (decide (g = f)) as [->|Hg]; [congruence|].
      rewrite (Hothers g Hg) in Hsome. destruct Hsome as [? [=]].
  - apply not_true_iff_false. intros Hv.
    apply (proj1 (validateOrderForm_reports_fields formData)) with (f := f)
      in Hv.
    congruence.
Qed.

Lemma one_failing_field_one_entry_witness :
  passes short_pin_form f_pin = false /\
  (forall g, g <> f_pin -> passes short_pin_form g = true) /\
  OrderManager.errors (OrderManager.validateOrderForm short_pin_form)
  = {[ lit "pin" := lit "Please enter a valid 6-digit PIN code" ]}.
Proof.
  assert (Hf : passes short_pin_form f_pin = false)
    by (vm_compute; reflexivity).
  assert (Hothers : forall g, g <> f_pin -> passes short_pin_form g = true).
  { intros g Hg. destruct g; first [exfalso; apply Hg; reflexivity
                                   | vm_compute; reflexivity]. }
  split; [exact Hf|]. split; [exact Hothers|].
  exact (proj1 (one_failing_field_one_entry short_pin_form f_pin Hf Hothers)).
Defined.

(* ===================================================================== *)
(** ** Orders: from selection to stored booking                          *)
(* ===================================================================== *)

(** What a call of [processOrder] leaves behind, by its outcome. *)
Lemma processOrder_outcome `{Host} (formData : gmap jsstring jsstring)
  (readings : Readings) (w : World) :
  let sel := fst (SelectionManager.getSelectedProduct w) in
  let booking := assembled_booking sel formData readings in
  let out := OrderManager.processOrder formData readings w in
  storage_blocked (snd out) = storage_blocked w /\
  (OrderManager.success (fst out) = true ->
   fst out = OrderManager.submitted true (Some booking) None /\
   truthy sel = true /\
   OrderManager.isValid (OrderManager.validateOrderForm formData) = true /\
   storage_blocked w = false /\
   localStorage (snd out)
   = <[CONFIG.STORAGE_KEYS.BOOKING_DATA := JSON_text (as_value booking)]>
       (localStorage w)) /\
  (OrderManager.success (fst out) = false ->
   localStorage (snd out) = localStorage w /\
   (truthy sel = true ->
    OrderManager.isValid (OrderManager.validateOrderForm formData) = true ->
    fst out = OrderManager.submitted false None (Some save_failed_error))).
Proof.
  cbn zeta. rewrite processOrder_unfold.
  unfold SelectionManager.getSelectedProduct.
  pose proof (getItem_preserves CONFIG.STORAGE_KEYS.SELECTED_PRODUCT w)
    as [Hls0 Hb0].
  destruct (Storage.getItem CONFIG.STORAGE_KEYS.SELECTED_PRODUCT w)
    as [sel w0].
  cbn [fst snd] in *.
  destruct (truthy sel) eqn:Hsel; cbn [negb];
    [|cbn [fst snd OrderManager.success];
      split; [exact Hb0|]; split; [discriminate|]; intros _;
      split; [exact Hls0|discriminate]].
  destruct (OrderManager.isValid _) eqn:Hvalid; cbn [negb];
    [|cbn [fst snd OrderManager.success];
      split; [exact Hb0|]; split; [discriminate|]; intros _;
      split; [exact Hls0|discriminate]].
  pose proof (setItem_cases CONFIG.STORAGE_KEYS.BOOKING_DATA
                (assembled_booking sel formData readings) w0) as Hset.
  cbn zeta in Hset.
  destruct (Storage.setItem _ _ w0) as [ok w1]. cbn [fst snd] in *.
  destruct Hset as [Hb1 Hset].
  cbn [OrderManager.success].
  split; [congruence|].
  destruct Hset as [[-> [Hls _]]|[-> [Hblk [_ [_ Hls]]]]].
  - split; [discriminate|]. intros _. split; [congruence|]. reflexivity.
  - split; [|discriminate]. intros _.
    repeat split; [congruence|rewrite Hls, Hls0; reflexivity].
Qed.

Lemma property_price (p : Product.t) :
  property (as_value p) (lit "price") = VNum (Int (Product.price p)).
Proof.
  unfold as_value, Product_AsValue. cbn [property].
  rewrite !lookup_insert_ne by discriminate.
  rewrite lookup_insert_eq. reflexivity.
Qed.

Lemma catalog_prices_positive (p : Product.t) :
  In p PRODUCT_CATALOG.products -> 0 < Product.price p.
Proof.
  unfold PRODUCT_CATALOG.products. cbn [In].
  intros [<-|[<-|[<-|[<-|[<-|[<-|[]]]]]]]; reflexivity.
Qed.

Lemma getProductById_in_catalog (productId : jsstring) (p : Product.t) :
  ProductManager.getProductById productId = Some p ->
  In p PRODUCT_CATALOG.products /\ Product.id p = productId.
Proof.
  unfold ProductManager.getProductById. intros Hfind.
  apply find_some in Hfind as [Hin Hid].
  apply bool_decide_eq_true in Hid. auto.
Qed.

(** X15. After a successful [selectProduct(id)], [processOrder] with a
    form that passes validation either stores a booking or fails on the
    write, nothing else.  The booking carries the selected catalog
    product, and its [totalAmount] is the product's price times the
    quantity, hence between one and ten times the price; a read of the
    booking key afterwards returns a record with the booking's [id].
    Whatever the outcome, the selection is still persisted afterwards. *)
Theorem order_after_select `{Host} (productId : jsstring)
  (formData : gmap jsstring jsstring) (readings : Readings) (w : World) :
  fst (SelectionManager.selectProduct productId w) = true ->
  OrderManager.isValid (OrderManager.validateOrderForm formData) = true ->
  let w1 := snd (SelectionManager.selectProduct productId w) in
  let out := OrderManager.processOrder formData readings w1 in
  exists p q,
    ProductManager.getProductById productId = Some p /\
    parseInt (formData !! lit "quantity") = Int q /\ 1 <= q <= 10 /\
    (OrderManager.success (fst out) = true ->
     exists b,
       fst out = OrderManager.submitted true (Some b) None /\
       Booking.product b = as_value p /\
       Booking.totalAmount b = Int (Product.price p * q) /\
       Product.price p <= Product.price p * q <= 10 * Product.price p /\
       property
         (fst (Storage.getItem CONFIG.STORAGE_KEYS.BOOKING_DATA (snd out)))
         (lit "id")
       = VStr (Booking.id b)) /\
    (OrderManager.success (fst out) = false ->
     fst out = OrderManager.submitted false None (Some save_failed_error)) /\
    fst (SelectionManager.getSelectedProduct (snd out)) = as_value p.
Proof.
  intros Hsel Hvalid. cbn zeta.
  destruct (ProductManager.getProductById productId) as [p|] eqn:Hp;
    [|unfold SelectionManager.selectProduct in Hsel; rewrite Hp in Hsel;
      discriminate Hsel].
  destruct (selectProduct_cases productId p w Hp) as [Hb1 Hcases].
  cbn zeta in Hb1, Hcases.
  destruct Hcases as [[Hno _]|[_ [Hblk Hls1]]]; [congruence|].
  set (w1 := snd (SelectionManager.selectProduct productId w)) in *.
  assert (Hread : fst (SelectionManager.getSelectedProduct w1) = as_value p).
  { unfold SelectionManager.getSelectedProduct.
    rewrite getItem_fst, Hb1, Hblk, Hls1, lookup_insert_eq. reflexivity. }
  destruct (proj1 (validateOrderForm_reports_fields formData)) as [Hall _].
  pose proof (Hall Hvalid f_quantity) as Hq. cbn [passes] in Hq.
  apply quantity_in_range_spec in Hq as [q [Hq Hrange]].
  destruct (getProductById_in_catalog productId p Hp) as [Hin _].
  pose proof (catalog_prices_positive p Hin) as Hpos.
  destruct (processOrder_outcome formData readings w1) as [Hb2 [Hok Hfail]].
  cbn zeta in Hb2, Hok, Hfail. rewrite Hread in Hok, Hfail.
  exists p, q. split; [reflexivity|]. split; [exact Hq|].
  split; [exact Hrange|]. split; [|split].
  - intros Hs. destruct (Hok Hs) as [Hr [_ [_ [_ Hls2]]]].
    exists (assembled_booking (as_value p) formData readings).
    split; [exact Hr|]. split; [reflexivity|]. split; [|split; [nia|]].
    + unfold assembled_booking. cbn [Booking.totalAmount].
      rewrite validatedData_quantity, Hq, property_price. reflexivity.
    + destruct (JSON_text_Booking_id
                  (assembled_booking (as_value p) formData readings))
        as [v [Hv Hid]].
      rewrite getItem_fst, Hb2, Hb1, Hblk, Hls2, lookup_insert_eq, Hv.
      exact Hid.
  - intros Hs. destruct (Hfail Hs) as [_ Hr]. apply Hr; [reflexivity|].
    exact Hvalid.
  - unfold SelectionManager.getSelectedProduct.
    rewrite getItem_fst, Hb2, Hb1, Hblk.
    destruct (OrderManager.success
                (fst (OrderManager.processOrder formData readings w1)))
      eqn:Hs.
    + destruct (Hok eq_refl) as [_ [_ [_ [_ ->]]]].
      rewrite lookup_insert_ne by discriminate.
      rewrite Hls1, lookup_insert_eq. reflexivity.
    + destruct (Hfail eq_refl) as [-> _].
      rewrite Hls1, lookup_insert_eq. reflexivity.
Qed.

Lemma order_after_select_witness :
  fst (@SelectionManager.selectProduct roomy_host (lit "old-monk-rum")
         empty_world) = true /\
  OrderManager.isValid (OrderManager.validateOrderForm sample_form) = true /\
  exists p q,
    ProductManager.getProductById (lit "old-monk-rum") = Some p /\
    parseInt (sample_form !! lit "quantity") = Int q.
Proof.
  assert (Hsel : fst (@SelectionManager.selectProduct roomy_host
                        (lit "old-monk-rum") empty_world) = true)
    by (vm_compute; reflexivity).
  assert (Hvalid : OrderManager.isValid
                     (OrderManager.validateOrderForm sample_form) = true)
    by (vm_compute; reflexivity).
  split; [exact Hsel|]. split; [exact Hvalid|].
  destruct (@order_after_select roomy_host (lit "old-monk-rum") sample_form
              sample_readings empty_world Hsel Hvalid)
    as [p [q [Hp [Hq _]]]].
  exists p, q. split; [exact Hp|exact Hq].
Defined.

(** X16. The booking key always holds the latest successful order: when
    a second [processOrder] succeeds, the stored booking has the second
    order's id whatever the first call did; when the second call fails for
    any reason, the booking stored before it reads exactly as it did. *)
Theorem later_order_replaces_booking `{Host}
  (formData1 formData2 : gmap jsstring jsstring)
  (readings1 readings2 : Readings) (w : World) :
  let first := OrderManager.processOrder formData1 readings1 w in
  let second := OrderManager.processOrder formData2 readings2 (snd first) in
  let stored w' := fst (Storage.getItem CONFIG.STORAGE_KEYS.BOOKING_DATA w') in
  (OrderManager.success (fst second) = true ->
   exists b,
     OrderManager.result_booking (fst second) = Some b /\
     Booking.id b
     = OrderManager.generateOrderId (orderId_now readings2)
                                    (orderId_random readings2) /\
     property (stored (snd second)) (lit "id") = VStr (Booking.id b)) /\
  (OrderManager.success (fst second) = false ->
   stored (snd second) = stored (snd first)).
Proof.
  cbn zeta.
  set (w1 := snd (OrderManager.processOrder formData1 readings1 w)).
  destruct (processOrder_outcome formData2 readings2 w1) as [Hb [Hok Hfail]].
  cbn zeta in Hb, Hok, Hfail. split.
  - intros Hs. destruct (Hok Hs) as [Hr [_ [_ [Hblk Hls]]]].
    eexists. rewrite Hr. split; [reflexivity|]. split; [reflexivity|].
    destruct (JSON_text_Booking_id
                (assembled_booking
                   (fst (SelectionManager.getSelectedProduct w1))
                   formData2 readings2)) as [v [Hv Hid]].
    rewrite getItem_fst, Hb, Hblk, Hls, lookup_insert_eq, Hv. exact Hid.
  - intros Hs. destruct (Hfail Hs) as [Hls _].
    rewrite !getItem_fst, Hb, Hls. reflexivity.
Qed.

(* ===================================================================== *)
(** ** The order page's form                                             *)
(* ===================================================================== *)

Lemma value_or_not_filled (x : option jsstring) (fallback : jsstring) :
  not_filled x -> value_or x fallback = fallback.
Proof. intros [-> | ->]; reflexivity. Qed.

Lemma formData_lookup (page : OrderPage.t) (f : field) :
  handleOrderSubmit_formData page !! field_key f
  = Some (match f with
          | f_name => value_or (OrderPage.customerName page) []
          | f_phone => value_or (OrderPage.phone page) []
          | f_address => value_or (OrderPage.address page) []
          | f_city => value_or (OrderPage.city page) []
          | f_pin => value_or (OrderPage.pin page) []
          | f_payment => value_or (OrderPage.payment page) []
          | f_quantity => value_or (OrderPage.quantity page) (lit "1")
          end).
Proof.
  unfold handleOrderSubmit_formData.
  destruct f; cbn [field_key];
    rewrite ?lookup_insert_ne by discriminate; apply lookup_insert_eq.
Qed.

Lemma formData_keys (page : OrderPage.t) (k : jsstring) :
  is_Some (handleOrderSubmit_formData page !! k) -> exists f, k = field_key f.
Proof.
  unfold handleOrderSubmit_formData.
  repeat (rewrite lookup_insert; case_decide;
          [subst k;
           first [ exists f_name; reflexivity | exists f_phone; reflexivity
                 | exists f_address; reflexivity | exists f_city; reflexivity
                 | exists f_pin; reflexivity | exists f_payment; reflexivity
                 | exists f_quantity; reflexivity ]|]).
  rewrite lookup_empty. intros [? [=]].
Qed.

(** X17. The form data [handleOrderSubmit] collects always has exactly
    the seven keys, each bound to a string.  A quantity input that is
    missing or left empty is submitted as "1" and passes the quantity
    check; a filled one is submitted as typed.  Any other input that is
    missing or left empty is submitted as the empty string and fails its
    check. *)
Theorem order_page_form (page : OrderPage.t) :
  let formData := handleOrderSubmit_formData page in
  (forall f, is_Some (formData !! field_key f)) /\
  (forall k, is_Some (formData !! k) -> exists f, k = field_key f) /\
  (not_filled (OrderPage.quantity page) ->
   formData !! lit "quantity" = Some (lit "1") /\
   passes formData f_quantity = true) /\
  (forall s, OrderPage.quantity page = Some s -> s <> [] ->
             formData !! lit "quantity" = Some s) /\
  (not_filled (OrderPage.customerName page) ->
   formData !! lit "name" = Some [] /\ passes formData f_name = false) /\
  (not_filled (OrderPage.phone page) ->
   formData !! lit "phone" = Some [] /\ passes formData f_phone = false) /\
  (not_filled (OrderPage.address page) ->
   formData !! lit "address" = Some [] /\ passes formData f_address = false) /\
  (not_filled (OrderPage.city page) ->
   formData !! lit "city" = Some [] /\ passes formData f_city = false) /\
  (not_filled (OrderPage.pin page) ->
   formData !! lit "pin" = Some [] /\ passes formData f_pin = false) /\
  (not_filled (OrderPage.payment page) ->
   formData !! lit "payment" = Some [] /\ passes formData f_payment = false).
Proof.
  cbn zeta.
  assert (Hget : forall f,
    handleOrderSubmit_formData page !! field_key f
    = Some (match f with
            | f_name => value_or (OrderPage.customerName page) []
            | f_phone => value_or (OrderPage.phone page) []
            | f_address => value_or (OrderPage.address page) []
            | f_city => value_or (OrderPage.city page) []
            | f_pin => value_or (OrderPage.pin page) []
            | f_payment => value_or (OrderPage.payment page) []
            | f_quantity => value_or (OrderPage.quantity page) (lit "1")
            end)) by apply formData_lookup.
  pose proof (Hget f_name) as Hname. pose proof (Hget f_phone) as Hphone.
  pose proof (Hget f_address) as Haddress. pose proof (Hget f_city) as Hcity.
  pose proof (Hget f_pin) as Hpin. pose proof (Hget f_payment) as Hpayment.
  pose proof (Hget f_quantity) as Hquantity.
  cbn [field_key] in Hname, Hphone, Haddress, Hcity, Hpin, Hpayment,
    Hquantity.
  split; [intros f; rewrite Hget; eauto|].
  split; [apply formData_keys|].
  cbn [passes].
  rewrite Hname, Hphone, Haddress, !Hcity, Hpin, Hpayment, !Hquantity.
  split; [intros Hq; rewrite (value_or_not_filled _ _ Hq);
          split; reflexivity|].
  split; [intros s Hs Hne; rewrite Hs;
          destruct s; [contradiction|reflexivity]|].
  repeat split;
    match goal with
    | Hx : not_filled _ |- _ =>
        rewrite (value_or_not_filled _ _ Hx); reflexivity
    end.
Qed.

(** The stored text of a booking keeps the customer's fields as strings
    and knows no other property of the customer. *)
Lemma JSON_text_Booking_customer `{Host} (b : Booking.t) :
  exists v, JSON_text (as_value b) = Text v /\
            forall k, property (property v (lit "customer")) k
                      = from_option VStr VUndefined (Booking.customer b !! k).
Proof.
  unfold JSON_text, as_value at 1, Booking_AsValue. cbn [JSON_stringify].
  eexists. split; [reflexivity|]. intros k.
  cbn [property]. rewrite lookup_omap.
  rewrite !lookup_insert_ne by discriminate.
  rewrite lookup_insert_eq. cbn [mbind option_bind JSON_stringify default].
  unfold id. cbn [property]. rewrite lookup_omap, lookup_fmap.
  destruct (Booking.customer b !! k); reflexivity.
Qed.

(** X18. In a booking stored by the order page, the customer record has
    the property [quantity] (the submitted quantity) and [phone] (the
    normalized number), but no property [qty]: reading [customer.qty], as
    [renderConfirmation] does, gives [undefined]. *)
Theorem stored_booking_customer_has_no_qty `{Host} (page : OrderPage.t)
  (readings : Readings) (w : World) :
  OrderManager.success
    (fst (handleOrderSubmit_processOrder page readings w)) = true ->
  let out := handleOrderSubmit_processOrder page readings w in
  let stored :=
    fst (Storage.getItem CONFIG.STORAGE_KEYS.BOOKING_DATA (snd out)) in
  let customer := property stored (lit "customer") in
  property customer (lit "qty") = VUndefined /\
  property customer (lit "quantity")
  = VStr (value_or (OrderPage.quantity page) (lit "1")) /\
  property customer (lit "phone")
  = VStr (remove_whitespace (value_or (OrderPage.phone page) [])).
Proof.
  intros Hs. cbn zeta. unfold handleOrderSubmit_processOrder in *.
  destruct (processOrder_outcome (handleOrderSubmit_formData page) readings w)
    as [Hb [Hok _]].
  cbn zeta in Hb, Hok. destruct (Hok Hs) as [_ [_ [_ [Hblk Hls]]]].
  set (b := assembled_booking _ _ _) in *.
  destruct (JSON_text_Booking_customer b) as [v [Hv Hcust]].
  rewrite getItem_fst, Hb, Hblk, Hls, lookup_insert_eq, Hv, !Hcust.
  unfold b, assembled_booking. cbn [Booking.customer].
  rewrite validatedData_unfold.
  rewrite lookup_insert_eq, !lookup_insert_ne by discriminate.
  pose proof (formData_lookup page f_quantity) as Hquantity.
  pose proof (formData_lookup page f_phone) as Hphone.
  cbn [field_key] in Hquantity, Hphone. rewrite Hquantity, Hphone.
  split; [|split; [reflexivity|]].
  - destruct (handleOrderSubmit_formData page !! lit "qty") eqn:E;
      [|reflexivity].
    destruct (formData_keys page (lit "qty")) as [f Hf]; [eauto|].
    destruct f; discriminate Hf.
  - cbn [from_option]. unfold Validator.validatePhone.
    cbn [Validator.value or_empty]. rewrite remove_whitespace_trim.
    reflexivity.
Qed.

Lemma stored_booking_customer_has_no_qty_witness :
  OrderManager.success
    (fst (@handleOrderSubmit_processOrder roomy_host sample_page
            sample_readings selected_world)) = true /\
  property
    (property
       (fst (Storage.getItem CONFIG.STORAGE_KEYS.BOOKING_DATA
               (snd (@handleOrderSubmit_processOrder roomy_host sample_page
                       sample_readings selected_world))))
       (lit "customer"))
    (lit "qty") = VUndefined.
Proof.
  assert (Hs : OrderManager.success
                 (fst (@handleOrderSubmit_processOrder roomy_host sample_page
                         sample_readings selected_world)) = true)
    by (vm_compute; reflexivity).
  split; [exact Hs|].
  exact (proj1 (@stored_booking_customer_has_no_qty roomy_host sample_page
                  sample_readings selected_world Hs)).
Defined.

(* ===================================================================== *)
(** ** Currency: grouping keeps the digits                               *)
(* ===================================================================== *)














(* ===================================================================== *)
(** ** Quantity: what [parseInt] reads                                   *)
(* ===================================================================== *)











